(** * glance.store.backend

    A shallow embedding of [glance/store/backend.py]: the scheme registry,
    the dispatcher ([get_from_backend], [delete_from_backend],
    [safe_delete_from_backend], [add_to_backend], [set_acls]), the metadata
    check ([check_location_metadata]) and the [Indexable] adapter, followed
    by the properties stated about them.

    Python exceptions are values of an outcome type, the module-level
    registry and the logger are an explicit [world] threaded through a
    small monad, and everything the module imports but does not define
    (the exception hierarchy, the location codec, the plugin loader, the
    drivers themselves) is a parameter. *)

From Stdlib Require Import ZArith Lia Ascii String Floats.
From stdpp Require Import gmap strings list pretty.

Open Scope Z_scope.

(** ** Python strings: [len], [find] and slicing *)

Module Py.

Definition len (s : string) : Z := Z.of_nat (String.length s).

Fixpoint find_from (c : ascii) (s : string) (i : Z) : Z :=
  match s with
  | EmptyString => -1
  | String a s' => if Ascii.eqb a c then i else find_from c s' (i + 1)
  end.

(** [s.find(c)]: the index of the first [c] in [s], or [-1]. *)
Definition find (s : string) (c : ascii) : Z := find_from c s 0.

(** How a slice bound [k] is read against a sequence of length [n]:
    a negative bound counts from the end, and both ends are clipped. *)
Definition bound (n k : Z) : Z :=
  if k <? 0 then Z.max 0 (k + n) else Z.min k n.

(** [s[lo:hi]] *)
Definition slice (s : string) (lo hi : Z) : string :=
  let l := bound (len s) lo in
  let h := bound (len s) hi in
  substring (Z.to_nat l) (Z.to_nat (h - l)) s.

(** [s[lo:]] *)
Definition slice_from (s : string) (lo : Z) : string :=
  let l := bound (len s) lo in
  substring (Z.to_nat l) (Z.to_nat (len s - l)) s.


End Py.

(** ** Exceptions *)

(** The exception classes met here: six builtins, and the classes the
    module takes from [glance.store.exceptions]. *)
Inductive exn_class :=
| NotImplementedError | RuntimeError | NameError | TypeError | IOError
| UnicodeEncodeError
| NotFound | UnknownScheme | BadStoreConfiguration | BackendException
| UnsupportedBackend | StoreGetNotSupported | StoreDeleteNotSupported
| StoreAddNotSupported.

#[global] Instance exn_class_eq_dec : EqDecision exn_class.
Proof. solve_decision. Defined.

(** An exception instance: its class and its text, what [str(e)] gives. *)
Record exn := Exc { exc_class : exn_class; exc_args : string }.

Inductive outcome (A : Type) :=
| Return (a : A)
| Raise (e : exn).
Arguments Return {A} a.
Arguments Raise {A} e.

Definition builtin (c : exn_class) : bool :=
  match c with
  | NotImplementedError | RuntimeError | NameError | TypeError | IOError
  | UnicodeEncodeError => true
  | _ => false
  end.

(** Among the builtins listed, [NotImplementedError] derives from
    [RuntimeError]; the others are unrelated. *)
Definition builtin_base (c d : exn_class) : bool :=
  match c, d with
  | NotImplementedError, RuntimeError => true
  | _, _ => false
  end.

(** [glance.store.exceptions] is imported, not defined, by the module: which
    of its classes derive from which is a parameter, giving for each class
    its proper ancestors. *)
Definition hierarchy := exn_class -> exn_class -> bool.

(** [issubclass(c, d)]. A builtin class never derives from a class of
    [glance.store.exceptions]. *)
Definition issubclass (bases : hierarchy) (c d : exn_class) : bool :=
  bool_decide (c = d) || (if builtin c then builtin_base c d else bases c d).

Definition isinstance (bases : hierarchy) (e : exn) (d : exn_class) : bool :=
  issubclass bases (exc_class e) d.

(** The hierarchy in which no class of [glance.store.exceptions] derives
    from another class named here. *)
Definition flat : hierarchy := fun _ _ => false.

(** ** Python values returned as metadata *)

#[warnings="-register-all"]
Inductive pyval :=
| PNone
| PBool (b : bool)
| PInt (n : Z)
| PFloat (x : float)
| PStr (s : string)
| PUnicode (s : string)
| PTuple (l : list pyval)
| PList (l : list pyval)
| PDict (items : list (string * pyval)).

(** ** Locations, drivers and the registry *)

(** Modelled from the spec: [glance.store.location] is not among the
    sources. A location is an opaque address that carries the name of the
    scheme owning it; [store_name] is the only attribute the module reads. *)
Record Location := { store_name : string; store_location : string }.

Definition context := option string.

(** A driver, as the module sees it: the methods it calls, each giving the
    value returned or the exception raised. [store_str] is [str(store)]. *)
Record Store := {
  store_str : string;
  get_schemes : outcome (list string);
  configure : outcome unit;
  get_store_location_class : outcome string;
  store_get : Location -> Z -> option Z -> context -> outcome (list string);
  store_get_size : Location -> context -> outcome Z;
  store_delete : Location -> context -> outcome pyval;
  store_add : string -> list string -> Z -> outcome (string * Z * string * pyval);
  store_set_acls : Location -> bool -> list string -> list string -> outcome unit
}.

Record scheme_info := { store : Store; location_class : string }.

Inductive log_level := DEBUG | WARN | ERROR.

#[global] Instance log_level_eq_dec : EqDecision log_level.
Proof. solve_decision. Defined.

Record log_record := LogRecord { levelname : log_level; message : string }.

(** The state the module reads and writes: [location.SCHEME_TO_CLS_MAP] and
    the records handed to [LOG], oldest first. *)
Record world := World {
  SCHEME_TO_CLS_MAP : gmap string scheme_info;
  LOG : list log_record
}.

(** ** The monad of module-level code *)

Definition M (A : Type) : Type := world -> outcome A * world.

Definition ret {A} (a : A) : M A := fun w => (Return a, w).

Definition bind {A B} (c : M A) (k : A -> M B) : M B :=
  fun w =>
    match c w with
    | (Return a, w') => k a w'
    | (Raise e, w') => (Raise e, w')
    end.

Definition raise {A} (e : exn) : M A := fun w => (Raise e, w).

(** Calling into a driver or another collaborator. *)
Definition call {A} (r : outcome A) : M A := fun w => (r, w).

Definition log (lvl : log_level) (text : string) : M unit :=
  fun w => (Return tt, World (SCHEME_TO_CLS_MAP w) (LOG w ++ [LogRecord lvl text])).

Definition get_map : M (gmap string scheme_info) :=
  fun w => (Return (SCHEME_TO_CLS_MAP w), w).

Definition put_map (m : gmap string scheme_info) : M unit :=
  fun w => (Return tt, World m (LOG w)).

Notation "x <- c ;; k" := (bind c (fun x => k))
  (at level 100, c at next level, right associativity).
Notation "c ;;; k" := (bind c (fun _ => k))
  (at level 100, right associativity).

(** [try: body except C1: h1 except C2: h2 ...]: the first clause whose
    class the raised exception is an instance of handles it. *)
Definition try_except {A} (bases : hierarchy) (body : M A)
    (handlers : list (exn_class * (exn -> M A))) : M A :=
  fun w =>
    match body w with
    | (Return a, w') => (Return a, w')
    | (Raise e, w') =>
        match List.find (fun h => isinstance bases e (fst h)) handlers with
        | Some h => snd h e w'
        | None => (Raise e, w')
        end
    end.

(** ** The metadata check *)

(** [type(val)], as [%s] prints it. *)
Definition type_str (val : pyval) : string :=
  match val with
  | PNone => "<type 'NoneType'>"
  | PBool _ => "<type 'bool'>"
  | PInt _ => "<type 'int'>"
  | PFloat _ => "<type 'float'>"
  | PStr _ => "<type 'str'>"
  | PUnicode _ => "<type 'unicode'>"
  | PTuple _ => "<type 'tuple'>"
  | PList _ => "<type 'list'>"
  | PDict _ => "<type 'dict'>"
  end.

Definition invalid_type_msg (key : string) (val : pyval) : string :=
  "The image metadata key " +:+ key +:+ " has an invalid type of "
  +:+ type_str val +:+ ". Only dict, list, and unicode are supported.".

(** ['%s[%d]' % (key, ndx)] *)
Definition index_key (key : string) (ndx : nat) : string :=
  key +:+ "[" +:+ pretty ndx +:+ "]".

(** A dict is the list of its items in iteration order. *)
Fixpoint check_location_metadata (val : pyval) (key : string) {struct val}
  : outcome unit :=
  match val with
  | PDict items =>
      (fix each (items : list (string * pyval)) : outcome unit :=
         match items with
         | [] => Return tt
         | (key, v) :: rest =>
             match check_location_metadata v key with
             | Return _ => each rest
             | Raise e => Raise e
             end
         end) items
  | PList l =>
      (fix each (l : list pyval) (ndx : nat) : outcome unit :=
         match l with
         | [] => Return tt
         | v :: rest =>
             match check_location_metadata v (index_key key ndx) with
             | Return _ => each rest (S ndx)
             | Raise e => Raise e
             end
         end) l 0%nat
  | PUnicode _ => Return tt
  | _ => Raise (Exc BackendException (invalid_type_msg key val))
  end.

(** ** [str] of a metadata value *)

(** The characters of a unicode value are modelled by their code point,
    up to 255; the code points below 128 are the ASCII ones. *)
Fixpoint is_ascii (s : string) : bool :=
  match s with
  | EmptyString => true
  | String a s' => (nat_of_ascii a <? 128)%nat && is_ascii s'
  end.

(** [str(val)] in Python 2. On a unicode value it encodes with the default
    codec, ASCII, and raises [UnicodeEncodeError] at a character outside
    it (the text of that error is abridged). On every other value modelled
    here it cannot fail, and [render] gives its text. *)
Definition py_str (render : pyval -> string) (val : pyval) : outcome string :=
  match val with
  | PUnicode s =>
      if is_ascii s then Return s
      else Raise (Exc UnicodeEncodeError "ordinal not in range(128)")
  | _ => Return (render val)
  end.

(** ** Loading drivers and filling the registry *)

Record Conf := { stores : list string; default_store : string }.

(** The file the [stevedore.driver] module was loaded from. It depends on
    the installation; the path inside the package stands for it. *)
Definition driver_module_file : string := "stevedore/driver.pyc".

(** [str(driver)], the [stevedore.driver] module that the warning of
    [_load_store] formats. *)
Definition driver_module_str : string :=
  "<module 'stevedore.driver' from '" +:+ driver_module_file +:+ "'>".

(** The names bound at module level: imports, constants, classes and
    functions. *)
Definition module_globals : list string :=
  ["logging"; "sys"; "cfg"; "driver"; "exceptions"; "_"; "location";
   "LOG"; "_DEPRECATED_STORE_OPTS"; "_STORE_OPTS"; "CONF"; "_STORE_CFG_GROUP";
   "_oslo_config_options"; "register_opts"; "register_store_opts";
   "Indexable"; "_load_store"; "_load_stores"; "create_stores";
   "verify_default_store"; "get_known_schemes"; "get_store_from_scheme";
   "get_store_from_uri"; "get_from_backend"; "get_size_from_backend";
   "delete_from_backend"; "get_store_from_location";
   "safe_delete_from_backend"; "_delete_image_from_backend";
   "check_location_metadata"; "store_add_to_backend"; "add_to_backend";
   "set_acls"].

(** The names [create_stores] assigns: its parameter, its locals and its
    loop variables. *)
Definition create_stores_locals : list string :=
  ["conf"; "store_count"; "store_classes"; "store_entry"; "store_instance";
   "schemes"; "scheme_map"; "scheme"; "loc_cls"].

(** Evaluating a bare name inside a function: a local, else a global, else
    a builtin (none of the names looked up here is one), else [NameError].
    The value of a bound name is not modelled; the name stands for its
    text. *)
Definition load_name (locals : list string) (x : string) : outcome string :=
  if bool_decide (x ∈ locals ++ module_globals) then Return x
  else Raise (Exc NameError x).

(** [str] of a list of strings. *)
Definition str_list (l : list string) : string :=
  "[" +:+ String.concat ", " (map (fun s => "'" +:+ s +:+ "'") l) +:+ "]".

(** [for x in gen: body], where the generator is the list of its
    resumptions: each one either yields a value or moves on to the next
    item, and the loop body runs between two resumptions. [acc] carries the
    locals the body updates. *)
Fixpoint for_yielded {A S} (gen : list (M (option A)))
    (body : S -> A -> M S) (acc : S) : M S :=
  match gen with
  | [] => ret acc
  | resume :: gen' =>
      y <- resume ;;
      match y with
      | None => for_yielded gen' body acc
      | Some a => acc' <- body acc a ;; for_yielded gen' body acc'
      end
  end.

(** Modelled from the spec: [location.register_scheme_map] is not among the
    sources. It merges the entries into the table, and the last writer for
    a scheme wins. *)
Definition register_scheme_map (scheme_map : gmap string scheme_info) : M unit :=
  m <- get_map ;; put_map (scheme_map ∪ m).

Section Backend.

(** The class hierarchy of [glance.store.exceptions]. *)
Variable bases : hierarchy.

(** [stevedore]'s [driver.DriverManager(...).driver]: the instance of the
    driver registered under an entry name, or the exception raised while
    looking it up and instantiating it. *)
Variable DriverManager : Conf -> string -> outcome Store.

(** [location.get_location_from_uri], which may consult the registry. *)
Variable get_location_from_uri : string -> M Location.

(** The text [str] gives for the metadata a driver returns, where [str]
    cannot fail; see [py_str]. *)
Variable str : pyval -> string.

(** [None] is the value of a call that falls off the end. *)
Definition _load_store (conf : Conf) (store_entry : string) : M (option Store) :=
  try_except bases
    (log DEBUG ("Attempting to import store " +:+ store_entry) ;;;
     mgr_driver <- call (DriverManager conf store_entry) ;;
     ret (Some mgr_driver))
    [(RuntimeError, fun ex =>
        log WARN ("Failed to load driver " +:+ driver_module_str +:+
                  ".The driver will be disabled") ;;;
        ret None)].

(** One resumption of the generator [_load_stores], for one entry. A
    driver instance is taken to be true, as objects are unless their
    class says otherwise. *)
Definition _load_stores_resume (conf : Conf) (store_entry : string)
  : M (option (string * Store)) :=
  try_except bases
    (store_instance <- _load_store conf store_entry ;;
     match store_instance with
     | None => ret None
     | Some inst => ret (Some (store_entry, inst))
     end)
    [(BadStoreConfiguration, fun e => ret None)].

Definition _load_stores (conf : Conf) : list (M (option (string * Store))) :=
  map (_load_stores_resume conf)
      (elements (list_to_set (stores conf) : gset string)).

Fixpoint fill_scheme_map (store_instance : Store) (schemes : list string)
    (scheme_map : gmap string scheme_info) : M (gmap string scheme_info) :=
  match schemes with
  | [] => ret scheme_map
  | scheme :: rest =>
      loc_cls <- call (get_store_location_class store_instance) ;;
      fill_scheme_map store_instance rest
        (<[scheme := {| store := store_instance; location_class := loc_cls |}]>
           scheme_map)
  end.

Definition create_stores (conf : Conf) : M Z :=
  for_yielded (_load_stores conf)
    (fun store_count '(store_entry, store_instance) =>
       schemes <- call (get_schemes store_instance) ;;
       call (configure store_instance) ;;;
       match schemes with
       | [] =>
           store_cls <- call (load_name create_stores_locals "store_cls") ;;
           raise (Exc BackendException
                    ("Unable to register store " +:+ store_cls +:+
                     ". No schemes associated with it."))
       | _ =>
           log DEBUG ("Registering store " +:+ store_entry +:+
                      " with schemes " +:+ str_list schemes) ;;;
           scheme_map <- fill_scheme_map store_instance schemes ∅ ;;
           register_scheme_map scheme_map ;;;
           ret (store_count + 1)
       end)
    0.

(** ** Looking a driver up *)

Definition get_store_from_scheme (scheme : string) : M Store :=
  m <- get_map ;;
  match m !! scheme with
  | None => raise (Exc UnknownScheme scheme)
  | Some scheme_info => ret (store scheme_info)
  end.

Definition verify_default_store (conf : Conf) : M unit :=
  let scheme := default_store conf in
  try_except bases
    (get_store_from_scheme scheme ;;; ret tt)
    [(UnknownScheme, fun _ =>
        raise (Exc RuntimeError ("Store for scheme " +:+ scheme +:+ " not found")))].

Definition get_known_schemes : M (list string) :=
  m <- get_map ;; ret (elements (dom m)).

(** [uri[0:uri.find('/') - 1]] *)
Definition scheme_of_uri (uri : string) : string :=
  Py.slice uri 0 (Py.find uri "/" - 1).

Definition get_store_from_uri (uri : string) : M Store :=
  let scheme := scheme_of_uri uri in
  get_store_from_scheme scheme.

(** ** The dispatcher *)

Definition get_from_backend (uri : string) (offset : Z)
    (chunk_size : option Z) (ctx : context) : M (list string) :=
  loc <- get_location_from_uri uri ;;
  store <- get_store_from_uri uri ;;
  try_except bases
    (call (store_get store loc offset chunk_size ctx))
    [(NotImplementedError, fun _ => raise (Exc StoreGetNotSupported EmptyString))].

Definition get_size_from_backend (uri : string) (ctx : context) : M Z :=
  loc <- get_location_from_uri uri ;;
  store <- get_store_from_uri uri ;;
  call (store_get_size store loc ctx).

Definition delete_from_backend (uri : string) (ctx : context) : M pyval :=
  loc <- get_location_from_uri uri ;;
  store <- get_store_from_uri uri ;;
  try_except bases
    (call (store_delete store loc ctx))
    [(NotImplementedError, fun _ => raise (Exc StoreDeleteNotSupported EmptyString))].

Definition get_store_from_location (uri : string) : M string :=
  loc <- get_location_from_uri uri ;;
  ret (store_name loc).

(** [cls.__name__] *)
Definition class_name (c : exn_class) : string :=
  match c with
  | NotImplementedError => "NotImplementedError"
  | RuntimeError => "RuntimeError"
  | NameError => "NameError"
  | TypeError => "TypeError"
  | IOError => "IOError"
  | UnicodeEncodeError => "UnicodeEncodeError"
  | NotFound => "NotFound"
  | UnknownScheme => "UnknownScheme"
  | BadStoreConfiguration => "BadStoreConfiguration"
  | BackendException => "BackendException"
  | UnsupportedBackend => "UnsupportedBackend"
  | StoreGetNotSupported => "StoreGetNotSupported"
  | StoreDeleteNotSupported => "StoreDeleteNotSupported"
  | StoreAddNotSupported => "StoreAddNotSupported"
  end.

(** A handler that ends without [return] gives [None]. *)
Definition safe_delete_from_backend (uri image_id : string) (ctx : context)
  : M pyval :=
  try_except bases
    (delete_from_backend uri ctx)
    [(NotFound, fun _ =>
        log WARN ("Failed to delete image " +:+ image_id +:+
                  " in store from URI") ;;;
        ret PNone);
     (StoreDeleteNotSupported, fun e =>
        log WARN (exc_args e) ;;;
        ret PNone);
     (UnsupportedBackend, fun e =>
        let exc_type := class_name (exc_class e) in
        log ERROR ("Failed to delete image " +:+ image_id +:+
                   " from store (" +:+ exc_type +:+ ")") ;;;
        ret PNone)].

Definition is_dict (val : pyval) : bool :=
  match val with PDict _ => true | _ => false end.

Definition is_None (val : pyval) : bool :=
  match val with PNone => true | _ => false end.

Definition store_add_to_backend (image_id : string) (data : list string)
    (size : Z) (store : Store) (ctx : context)
  : M (string * Z * string * pyval) :=
  r <- call (store_add store image_id data size) ;;
  let '(location, size, checksum, metadata) := r in
  (if negb (is_None metadata) then
     if negb (is_dict metadata) then
       (metadata_str <- call (py_str str metadata) ;;
        let msg := "The storage driver " +:+ store_str store +:+
                   " returned invalid  metadata " +:+ metadata_str +:+
                   ". This must be a dictionary type" in
        log ERROR msg ;;;
        raise (Exc BackendException msg))
     else
       try_except bases
         (call (check_location_metadata metadata EmptyString))
         [(BackendException, fun e =>
             metadata_str <- call (py_str str metadata) ;;
             let e_msg := "A bad metadata structure was returned from the "
                          +:+ store_str store +:+ " storage driver: " +:+
                          metadata_str +:+ ".  " +:+ exc_args e +:+ "." in
             log ERROR e_msg ;;;
             raise (Exc BackendException e_msg))]
   else ret tt) ;;;
  ret (location, size, checksum, metadata).

Definition add_to_backend (conf : Conf) (image_id : string)
    (data : list string) (size : Z) (scheme : option string) (ctx : context)
  : M (string * Z * string * pyval) :=
  let scheme := match scheme with
                | None => default_store conf
                | Some s => s
                end in
  store <- get_store_from_scheme scheme ;;
  try_except bases
    (store_add_to_backend image_id data size store ctx)
    [(NotImplementedError, fun _ => raise (Exc StoreAddNotSupported EmptyString))].

Definition set_acls (location_uri : string) (public : bool)
    (read_tenants : list string) (write_tenants : option (list string))
    (ctx : context) : M unit :=
  let write_tenants := match write_tenants with
                       | None => []
                       | Some l => l
                       end in
  loc <- get_location_from_uri location_uri ;;
  scheme <- get_store_from_location location_uri ;;
  store <- get_store_from_scheme scheme ;;
  try_except bases
    (call (store_set_acls store loc public read_tenants write_tenants))
    [(NotImplementedError, fun _ =>
        log DEBUG "Skipping store.set_acls... not implemented.")].

End Backend.

(** ** The [Indexable] adapter *)

Module Indexable.

(** The wrapped iterator or file-like object: the chunks that iterating
    it will still produce, and its [len] attribute when it has one. *)
Record source := Source { pending : list string; len : option Z }.

(** [chunk] is [None] until a chunk has been cached. *)
Record t := Make {
  wrapped : source;
  size : Z;
  cursor : Z;
  chunk : option string
}.

Definition truthy (size : option Z) : bool :=
  match size with
  | Some n => negb (n =? 0)
  | None => false
  end.

Definition __init__ (wrapped : source) (size : option Z) : t :=
  {| wrapped := wrapped;
     size := if truthy size then default 0 size
             else match len wrapped with
                  | Some n => n
                  | None => 0
                  end;
     cursor := 0;
     chunk := None |}.

(** One resumption of the generator [__iter__]: the wrapped iterator is
    advanced, its item is bound to [self.chunk] and yielded; [None] when
    the wrapped iterator is exhausted and the generator returns. *)
Definition __iter__ (self : t) : option (string * t) :=
  match pending (wrapped self) with
  | [] => None
  | c :: rest =>
      Some (c, {| wrapped := Source rest (len (wrapped self));
                  size := size self;
                  cursor := cursor self;
                  chunk := Some c |})
  end.

(** Iterating the adapter for at most [n] items: each chunk yielded, with
    the adapter as it is when the consumer receives that chunk. *)
Fixpoint iterate (n : nat) (self : t) : list (string * t) :=
  match n with
  | O => []
  | S n' =>
      match __iter__ self with
      | None => []
      | Some (c, self') => (c, self') :: iterate n' self'
      end
  end.

(** What is written between the brackets: an integer or a slice. *)
Inductive index :=
| Int (i : Z)
| Slice (start stop : option Z).

(** A chunk is true when it is neither [None] nor empty. *)
Definition nonempty (c : option string) : bool :=
  match c with
  | Some s => negb (Py.len s =? 0)
  | None => false
  end.

(** [another] as the class itself defines it. *)
Definition another (self : t) : outcome (option string) * t :=
  (Raise (Exc NotImplementedError EmptyString), self).

(** An override of [another] for an iterator source: its next item, and
    the empty string once it is exhausted. *)
Definition another_next (self : t) : outcome (option string) * t :=
  match pending (wrapped self) with
  | [] => (Return (Some EmptyString), self)
  | c :: rest =>
      (Return (Some c),
       {| wrapped := Source rest (len (wrapped self));
          size := size self;
          cursor := cursor self;
          chunk := chunk self |})
  end.

Section GetItem.

(** The [another] of the subclass at hand: what it returns or raises,
    and the adapter as it leaves it. *)
Variable another : t -> outcome (option string) * t.

(** In Python 2 [None < n] holds for every integer [n], and subtracting
    from [None], like slicing [None], raises [TypeError]. *)
Definition __getitem__ (self : t) (i : index) : outcome (option string) * t :=
  let start := match i with
               | Slice start _ => start
               | Int i => Some i
               end in
  match start with
  | None =>
      (Raise (Exc TypeError "unsupported operand type(s) for -"), self)
  | Some start =>
      if start <? cursor self then
        match chunk self with
        | None =>
            (Raise (Exc TypeError "'NoneType' object has no attribute '__getitem__'"),
             self)
        | Some c => (Return (Some (Py.slice_from c (start - cursor self))), self)
        end
      else
        match another self with
        | (Raise e, self') => (Raise e, self')
        | (Return c, self') =>
            (Return c,
             {| wrapped := wrapped self';
                size := size self';
                cursor := if nonempty c
                          then cursor self' + Py.len (default EmptyString c)
                          else cursor self';
                chunk := c |})
        end
  end.

End GetItem.

Definition __len__ (self : t) : Z := size self.

End Indexable.

(** ** Vocabulary of the properties *)

(** Metadata in which every leaf is text. *)
Fixpoint metadata_ok (val : pyval) : bool :=
  match val with
  | PDict items => forallb (fun '(_, v) => metadata_ok v) items
  | PList l => forallb metadata_ok l
  | PUnicode _ => true
  | _ => false
  end.

(** A value that is neither a dict, nor a list, nor text. *)
Definition other_leaf (val : pyval) : bool :=
  match val with
  | PDict _ | PList _ | PUnicode _ => false
  | _ => true
  end.

(** [offends val key path leaf]: inside [val], itself reached under [key],
    sits the leaf [leaf] of another type, and [path] is the key it is
    checked under: the key of the innermost dict around it, followed by
    the indices of the lists between that dict and the leaf. *)
Inductive offends : pyval -> string -> string -> pyval -> Prop :=
| offends_here val key :
    other_leaf val = true -> offends val key key val
| offends_item l ndx v key path leaf :
    l !! ndx = Some v ->
    offends v (index_key key ndx) path leaf ->
    offends (PList l) key path leaf
| offends_value items k v key path leaf :
    (k, v) ∈ items ->
    offends v k path leaf ->
    offends (PDict items) key path leaf.



(** What [__getitem__] takes as the requested start. *)
Definition start_of (i : Indexable.index) : option Z :=
  match i with
  | Indexable.Slice start _ => start
  | Indexable.Int i => Some i
  end.

(** What a dispatcher makes of the result of the driver call it wraps: the
    error of the operation when the call raised [NotImplementedError], and
    the very same value or exception otherwise. *)
Definition unsupported_only {A} (bases : hierarchy) (op_error : exn_class)
    (wrapped dispatched : outcome A) : Prop :=
  match wrapped with
  | Return v => dispatched = Return v
  | Raise e =>
      if isinstance bases e NotImplementedError
      then dispatched = Raise (Exc op_error EmptyString)
      else dispatched = Raise e
  end.

(** ** Sample drivers, registries and sources *)

Definition sample_store (name : string) (schemes : list string)
    (on_get : outcome (list string)) (on_delete : outcome pyval)
    (on_add : outcome pyval) (on_set_acls : outcome unit) : Store :=
  {| store_str := name;
     get_schemes := Return schemes;
     configure := Return tt;
     get_store_location_class := Return "StoreLocation";
     store_get := fun _ _ _ _ => on_get;
     store_get_size := fun _ _ => Return 5;
     store_delete := fun _ _ => on_delete;
     store_add := fun image_id _ size =>
       match on_add with
       | Return metadata => Return (name +:+ "://" +:+ image_id, size, EmptyString, metadata)
       | Raise e => Raise e
       end;
     store_set_acls := fun _ _ _ _ => on_set_acls |}.

Definition not_implemented {A} : outcome A := Raise (Exc NotImplementedError EmptyString).

(** A driver that implements every operation. *)
Definition mem_store : Store :=
  sample_store "mem" ["mem"] (Return ["hello"]) (Return PNone) (Return PNone)
    (Return tt).

(** A driver that implements none of the optional operations. *)
Definition bare_store : Store :=
  sample_store "bare" ["bare"] not_implemented not_implemented not_implemented
    not_implemented.

(** A driver whose [delete] fails with an I/O error. *)
Definition failing_store : Store :=
  sample_store "file" ["file"; "filesystem"] (Return ["hello"])
    (Raise (Exc IOError "Permission denied")) (Return PNone) (Return tt).

(** A driver whose [add] returns a bare text as metadata. *)
Definition text_store : Store :=
  sample_store "text" ["text"] (Return []) (Return PNone)
    (Return (PUnicode "note")) (Return tt).

(** A driver that instantiates and reports no scheme. *)
Definition void_store : Store :=
  sample_store "void" [] (Return []) (Return PNone) (Return PNone) (Return tt).

Definition registry_of (l : list (string * Store)) : world :=
  World (list_to_map
           (map (fun '(scheme, st) =>
                   (scheme, {| store := st; location_class := "StoreLocation" |}))
                l))
        [].

(** The plugin entry points of the samples; any other name is not found. *)
Definition sample_manager (conf : Conf) (store_entry : string) : outcome Store :=
  if String.eqb store_entry "mem" then Return mem_store
  else if String.eqb store_entry "void" then Return void_store
  else if String.eqb store_entry "misconfigured"
       then Raise (Exc BadStoreConfiguration "misconfigured")
  else Raise (Exc RuntimeError "No 'glance.store.drivers' driver found").

(** Modelled from the spec: [location.get_location_from_uri] is not among
    the sources. The URI is split at the colon that ends the scheme, and
    the scheme must be registered. *)
Definition colon_location (uri : string) : M Location :=
  fun w =>
    let scheme := Py.slice uri 0 (Py.find uri ":") in
    match SCHEME_TO_CLS_MAP w !! scheme with
    | Some _ => (Return {| store_name := scheme; store_location := uri |}, w)
    | None => (Raise (Exc UnknownScheme scheme), w)
    end.

Definition sample_str (val : pyval) : string :=
  match val with
  | PStr s | PUnicode s => s
  | _ => type_str val
  end.

(** The source of the adapter scenario: chunks ["ab"] and ["cd"], declared
    size 4. *)
Definition ab_cd : Indexable.t :=
  Indexable.__init__ (Indexable.Source ["ab"; "cd"] None) (Some 4).

(** ** Loading without registering *)

(** [register_store_opts]: [list(_load_stores(conf))] runs the generator to
    its end, and the list of what it yielded is dropped. *)
Definition register_store_opts (bases : hierarchy)
    (DriverManager : Conf -> string -> outcome Store) (conf : Conf) : M unit :=
  for_yielded (_load_stores bases DriverManager conf)
    (fun yielded y => ret (yielded ++ [y])) [] ;;;
  ret tt.

(** The one-character text [u'\xe9']. *)
Definition e_acute : string := String (ascii_of_nat 233) EmptyString.

(** A driver whose [add] returns the given metadata. *)
Definition tagged_store (metadata : pyval) : Store :=
  sample_store "tagged" ["tagged"] (Return []) (Return PNone) (Return metadata)
    (Return tt).

(** A driver whose [configure] rejects its configuration. *)
Definition misconfigured_store : Store :=
  {| store_str := "strict";
     get_schemes := Return ["strict"];
     configure := Raise (Exc BadStoreConfiguration "missing option");
     get_store_location_class := Return "StoreLocation";
     store_get := fun _ _ _ _ => Return [];
     store_get_size := fun _ _ => Return 0;
     store_delete := fun _ _ => Return PNone;
     store_add := fun image_id _ size => Return (image_id, size, EmptyString, PNone);
     store_set_acls := fun _ _ _ _ => Return tt |}.

(** * Properties *)

(** ** Metadata *)

(** Induction on metadata, with the hypothesis for every element of a list
    and every value of a dict. *)
Lemma pyval_nested_ind (P : pyval -> Prop) :
  P PNone -> (forall b, P (PBool b)) -> (forall n, P (PInt n)) ->
  (forall x, P (PFloat x)) -> (forall s, P (PStr s)) ->
  (forall s, P (PUnicode s)) ->
  (forall l, Forall P l -> P (PTuple l)) ->
  (forall l, Forall P l -> P (PList l)) ->
  (forall items, Forall (fun kv => P (snd kv)) items -> P (PDict items)) ->
  forall v, P v.
Proof.
  intros HN HB HI HF HS HU HT HL HD.
  fix IH 1. intros [| b | n | x | s | s | l | l | items].
  - exact HN.
  - apply HB.
  - apply HI.
  - apply HF.
  - apply HS.
  - apply HU.
  - apply HT. induction l as [| v l IHl]; constructor; [apply IH | exact IHl].
  - apply HL. induction l as [| v l IHl]; constructor; [apply IH | exact IHl].
  - apply HD. induction items as [| [k v] items IHl]; constructor;
      [apply IH | exact IHl].
Qed.

Lemma check_accepts (val : pyval) :
  forall key, metadata_ok val = true -> check_location_metadata val key = Return tt.
Proof.
  induction val as [| | | | | | l IH | l IH | items IH] using pyval_nested_ind;
    intros key Hok; simpl in Hok; try discriminate; try reflexivity.
  - simpl. generalize 0%nat.
    induction IH as [| v l Hv _ IHl]; intros ndx; [reflexivity |].
    simpl in Hok. apply andb_prop in Hok as [Hv' Hl].
    rewrite (Hv _ Hv'). apply IHl, Hl.
  - simpl.
    induction IH as [| [k v] items Hv _ IHl]; [reflexivity |].
    simpl in Hok. apply andb_prop in Hok as [Hv' Hl].
    simpl in Hv. rewrite (Hv _ Hv'). apply IHl, Hl.
Qed.

Lemma check_rejects (val : pyval) :
  forall key, metadata_ok val = false ->
  exists path leaf,
    offends val key path leaf /\
    check_location_metadata val key =
      Raise (Exc BackendException (invalid_type_msg path leaf)).
Proof.
  induction val as [| | | | | | l IH | l IH | items IH] using pyval_nested_ind;
    intros key Hbad; simpl in Hbad; try discriminate;
    try (eexists _, _; split; [apply offends_here; reflexivity | reflexivity]).
  - (* list *)
    assert (Hgen : forall ndx, 
      exists path leaf,
        (exists n v, l !! n = Some v /\ offends v (index_key key (ndx + n)%nat) path leaf) /\
        (fix each (l : list pyval) (ndx : nat) : outcome unit :=
           match l with
           | [] => Return tt
           | v :: rest =>
               match check_location_metadata v (index_key key ndx) with
               | Return _ => each rest (S ndx)
               | Raise e => Raise e
               end
           end) l ndx = Raise (Exc BackendException (invalid_type_msg path leaf))).
    { induction IH as [| v l Hv _ IHl]; intros ndx; [discriminate |].
      simpl in Hbad. destruct (metadata_ok v) eqn:Ev.
      - simpl in Hbad. destruct (IHl Hbad (S ndx)) as (path & leaf & (n & x & Hn & Hoff) & Hrun).
        exists path, leaf. split.
        + exists (S n), x. split; [exact Hn |].
          replace (ndx + S n)%nat with (S ndx + n)%nat by lia. exact Hoff.
        + rewrite (check_accepts v _ Ev). exact Hrun.
      - destruct (Hv (index_key key ndx) eq_refl) as (path & leaf & Hoff & Hrun).
        exists path, leaf. split.
        + exists 0%nat, v. split; [reflexivity |].
          replace (ndx + 0)%nat with ndx by lia. exact Hoff.
        + rewrite Hrun. reflexivity. }
    destruct (Hgen 0%nat) as (path & leaf & (n & x & Hn & Hoff) & Hrun).
    exists path, leaf. split; [| exact Hrun].
    eapply offends_item; eauto.
  - (* dict *)
    assert (Hgen :
      exists path leaf,
        (exists k v, (k, v) ∈ items /\ offends v k path leaf) /\
        (fix each (items : list (string * pyval)) : outcome unit :=
           match items with
           | [] => Return tt
           | (key, v) :: rest =>
               match check_location_metadata v key with
               | Return _ => each rest
               | Raise e => Raise e
               end
           end) items = Raise (Exc BackendException (invalid_type_msg path leaf))).
    { induction IH as [| [k v] items Hv _ IHl]; [discriminate |].
      simpl in Hbad, Hv. destruct (metadata_ok v) eqn:Ev.
      - simpl in Hbad. destruct (IHl Hbad) as (path & leaf & (k' & x & Hin & Hoff) & Hrun).
        exists path, leaf. split.
        + exists k', x. split; [right; exact Hin | exact Hoff].
        + rewrite (check_accepts v _ Ev). exact Hrun.
      - destruct (Hv k eq_refl) as (path & leaf & Hoff & Hrun).
        exists path, leaf. split.
        + exists k, v. split; [left | exact Hoff].
        + rewrite Hrun. reflexivity. }
    destruct Hgen as (path & leaf & (k & x & Hin & Hoff) & Hrun).
    exists path, leaf. split; [| exact Hrun].
    eapply offends_value; eauto.
Qed.




(** ** Strings *)

Lemma find_from_absent_app (c : ascii) (s t : string) :
  forall i, 0 <= i -> Py.find_from c s i = -1 ->
  Py.find_from c (s +:+ String c t) i = i + Py.len s.
Proof.
  unfold Py.len. induction s as [| a s IH]; intros i Hi Habs; simpl in *.
  - rewrite Ascii.eqb_refl. lia.
  - destruct (Ascii.eqb a c); [lia |].
    rewrite IH by (lia || assumption). lia.
Qed.

Lemma substring_prefix (s t : string) :
  substring 0 (String.length s) (s +:+ t) = s.
Proof.
  induction s as [| a s IH]; simpl.
  - destruct t; reflexivity.
  - now rewrite IH.
Qed.

Lemma length_app_le (s t : string) :
  (String.length s <= String.length (s +:+ t))%nat.
Proof. induction s; simpl; lia. Qed.


(** ** The registry *)

Lemma find_from_absent_snoc (c d : ascii) (s : string) :
  d <> c ->
  forall i, 0 <= i -> Py.find_from c s i = -1 ->
  Py.find_from c (s +:+ String d EmptyString) i = -1.
Proof.
  intros Hd. induction s as [| a s IH]; intros i Hi Habs; simpl in *.
  - destruct (Ascii.eqb_spec d c); [contradiction | reflexivity].
  - destruct (Ascii.eqb a c); [lia |]. apply IH; [lia | assumption].
Qed.

Lemma append_snoc (s t : string) (d : ascii) :
  (s +:+ String d EmptyString) +:+ t = s +:+ String d t.
Proof.
  induction s as [| a s IH]; [reflexivity |].
  change (String a ((s +:+ String d EmptyString) +:+ t) = String a (s +:+ String d t)).
  now rewrite IH.
Qed.

Lemma length_snoc (s : string) (d : ascii) :
  String.length (s +:+ String d EmptyString) = S (String.length s).
Proof. induction s; simpl; lia. Qed.

(** When the colon that ends the scheme is directly followed by the first
    slash of the URI, the slice is the scheme. *)
Lemma scheme_of_uri_colon_slash (scheme rest : string) :
  Py.find scheme "/" = -1 ->
  scheme_of_uri (scheme +:+ String ":" (String "/" rest)) = scheme.
Proof.
  intros Hno. unfold scheme_of_uri, Py.find in *.
  rewrite <- (append_snoc scheme (String "/" rest) ":").
  rewrite find_from_absent_app;
    [| lia | apply find_from_absent_snoc; [discriminate | lia | exact Hno]].
  rewrite append_snoc. unfold Py.slice, Py.bound, Py.len.
  rewrite length_snoc.
  pose proof (length_app_le scheme (String ":" (String "/" rest))) as Hle.
  replace (0 <? 0) with false by reflexivity.
  destruct (Z.ltb_spec (0 + Z.of_nat (S (String.length scheme)) - 1) 0); [lia |].
  rewrite Z.min_l by lia.
  replace (Z.to_nat (Z.min _ _ - 0)) with (String.length scheme) by lia.
  replace (Z.to_nat 0) with 0%nat by reflexivity.
  apply substring_prefix.
Qed.

Lemma get_store_from_scheme_registered (scheme : string) (w : world) info :
  SCHEME_TO_CLS_MAP w !! scheme = Some info ->
  get_store_from_scheme scheme w = (Return (store info), w).
Proof. intros H. unfold get_store_from_scheme, bind, get_map. now rewrite H. Qed.

Lemma get_store_from_scheme_unknown (scheme : string) (w : world) :
  SCHEME_TO_CLS_MAP w !! scheme = None ->
  get_store_from_scheme scheme w = (Raise (Exc UnknownScheme scheme), w).
Proof. intros H. unfold get_store_from_scheme, bind, get_map. now rewrite H. Qed.

(** A URI of the usual shape, [scheme:/...] with no slash in the scheme,
    resolves to the driver registered for the scheme. *)
Lemma get_store_from_uri_colon_slash (scheme rest : string) (w : world) info :
  Py.find scheme "/" = -1 ->
  SCHEME_TO_CLS_MAP w !! scheme = Some info ->
  get_store_from_uri (scheme +:+ String ":" (String "/" rest)) w =
  (Return (store info), w).
Proof.
  intros Hno Hreg. unfold get_store_from_uri.
  rewrite scheme_of_uri_colon_slash by exact Hno.
  now apply get_store_from_scheme_registered.
Qed.

(** C2. A URI made of a registered scheme, a colon and a remainder is not
    always resolved to that scheme: [get_store_from_uri] slices up to the
    character before the first slash. On ["mem:abc"], which has no slash,
    [find] gives [-1], the slice drops the last two characters, and the
    lookup of ["mem:a"] raises [UnknownScheme] although ["mem"] is
    registered; on ["file:a/b"] the slice is ["file:"]. *)
Theorem get_store_from_uri_slices_before_slash :
  SCHEME_TO_CLS_MAP (registry_of [("mem", mem_store)]) !! "mem"
    = Some {| store := mem_store; location_class := "StoreLocation" |} /\
  get_store_from_uri "mem:abc" (registry_of [("mem", mem_store)]) =
    (Raise (Exc UnknownScheme "mem:a"), registry_of [("mem", mem_store)]) /\
  scheme_of_uri "file:a/b" = "file:" /\
  get_store_from_uri "file:a/b" (registry_of [("file", failing_store)]) =
    (Raise (Exc UnknownScheme "file:"), registry_of [("file", failing_store)]).
Proof. repeat split; vm_compute; reflexivity. Qed.

(** A driver whose lookup raises [RuntimeError] is skipped with a warning. *)
Lemma _load_stores_resume_runtime_error bases DriverManager conf entry e w :
  DriverManager conf entry = Raise e ->
  isinstance bases e RuntimeError = true ->
  _load_stores_resume bases DriverManager conf entry w =
  (Return None,
   World (SCHEME_TO_CLS_MAP w)
         ((LOG w ++ [LogRecord DEBUG ("Attempting to import store " +:+ entry)])
          ++ [LogRecord WARN ("Failed to load driver " +:+ driver_module_str +:+
                              ".The driver will be disabled")])).
Proof.
  intros Hload Hrt.
  unfold _load_stores_resume, _load_store, try_except, bind, log, call, ret.
  simpl. rewrite Hload. simpl. rewrite Hrt. reflexivity.
Qed.

(** A driver whose lookup raises [BadStoreConfiguration] is skipped. *)
Lemma _load_stores_resume_bad_configuration bases DriverManager conf entry e w :
  DriverManager conf entry = Raise e ->
  isinstance bases e RuntimeError = false ->
  isinstance bases e BadStoreConfiguration = true ->
  _load_stores_resume bases DriverManager conf entry w =
  (Return None,
   World (SCHEME_TO_CLS_MAP w)
         (LOG w ++ [LogRecord DEBUG ("Attempting to import store " +:+ entry)])).
Proof.
  intros Hload Hrt Hbad.
  unfold _load_stores_resume, _load_store, try_except, bind, log, call, ret.
  simpl. rewrite Hload. simpl. rewrite Hrt. simpl. rewrite Hbad. reflexivity.
Qed.

(** The load goes on after a driver that could not be instantiated: of a
    missing plugin, a misconfigured one and a working one, the working one
    is registered and counted. *)
Lemma create_stores_skips_failed_drivers :
  exists w,
    create_stores flat sample_manager
      {| stores := ["ghost"; "mem"; "misconfigured"]; default_store := "mem" |}
      (World ∅ []) = (Return 1, w) /\
    SCHEME_TO_CLS_MAP w !! "mem"
      = Some {| store := mem_store; location_class := "StoreLocation" |}.
Proof. eexists. split; vm_compute; reflexivity. Qed.

(** A driver that reports no scheme stops the load, whatever was loaded
    before it, with the [NameError] of the unbound [store_cls]. *)
Lemma create_stores_body_no_schemes bases DriverManager conf entry st w :
  stores conf = [entry] ->
  DriverManager conf entry = Return st ->
  get_schemes st = Return [] ->
  configure st = Return tt ->
  create_stores bases DriverManager conf w =
  (Raise (Exc NameError "store_cls"),
   World (SCHEME_TO_CLS_MAP w)
         (LOG w ++ [LogRecord DEBUG ("Attempting to import store " +:+ entry)])).
Proof.
  intros Hconf Hload Hsch Hcfg.
  unfold create_stores, _load_stores. rewrite Hconf. simpl.
  rewrite (right_id_L ∅ (∪)), elements_singleton. simpl.
  unfold bind, _load_stores_resume, _load_store, try_except, bind, log, call, ret.
  simpl. rewrite Hload. simpl. rewrite Hsch, Hcfg. reflexivity.
Qed.

(** C3. A driver that instantiates and reports no scheme does abort
    [create_stores], but not with the [BackendException] the code builds:
    formatting its message evaluates [store_cls], a name bound neither in
    [create_stores] nor at module level, so the error that leaves the call
    is a [NameError]. *)
Theorem create_stores_no_schemes_name_error :
  forall bases,
    load_name create_stores_locals "store_cls" = Raise (Exc NameError "store_cls") /\
    create_stores bases sample_manager
      {| stores := ["void"]; default_store := "void" |} (World ∅ []) =
    (Raise (Exc NameError "store_cls"),
     World ∅ [LogRecord DEBUG "Attempting to import store void"]).
Proof.
  intros bases. split; [vm_compute; reflexivity |].
  apply (create_stores_body_no_schemes bases sample_manager _ "void" void_store);
    reflexivity.
Qed.

(** ** The dispatcher *)

Section Dispatcher.

Variable bases : hierarchy.
Variable get_location_from_uri : string -> M Location.
Variable str : pyval -> string.

Lemma try_except_return {A} (body : M A) handlers w a w' :
  body w = (Return a, w') ->
  try_except bases body handlers w = (Return a, w').
Proof. intros H. unfold try_except. now rewrite H. Qed.

Lemma try_except_one {A} (body : M A) c (h : exn -> M A) w e w' :
  body w = (Raise e, w') ->
  try_except bases body [(c, h)] w =
  if isinstance bases e c then h e w' else (Raise e, w').
Proof.
  intros H. unfold try_except. rewrite H. simpl.
  now destruct (isinstance bases e c).
Qed.

Lemma store_add_to_backend_driver_raises image_id data size st ctx w e :
  store_add st image_id data size = Raise e ->
  store_add_to_backend bases str image_id data size st ctx w = (Raise e, w).
Proof.
  intros H. unfold store_add_to_backend, bind, call. now rewrite H.
Qed.

Lemma check_location_metadata_raises val key e :
  check_location_metadata val key = Raise e -> exc_class e = BackendException.
Proof.
  intros H. destruct (metadata_ok val) eqn:Eok.
  - rewrite (check_accepts val key Eok) in H. discriminate.
  - destruct (check_rejects val key Eok) as (path & leaf & _ & Hrun).
    rewrite Hrun in H. now inversion H.
Qed.

Lemma py_str_raises (val : pyval) (e : exn) :
  py_str str val = Raise e -> exc_class e = UnicodeEncodeError.
Proof.
  destruct val; simpl; try discriminate.
  destruct (is_ascii s); [discriminate |]. intros H. now inversion H.
Qed.

(** The validation inside [store_add_to_backend] either returns the
    driver's tuple, or raises a [BackendException], or fails with the
    [UnicodeEncodeError] of [str] while the text of that exception is
    built. *)
Lemma store_add_to_backend_validates image_id data size st ctx w r :
  store_add st image_id data size = Return r ->
  (exists w', store_add_to_backend bases str image_id data size st ctx w
              = (Return r, w')) \/
  (exists e w', store_add_to_backend bases str image_id data size st ctx w
                = (Raise e, w') /\
                (exc_class e = BackendException \/
                 exc_class e = UnicodeEncodeError)).
Proof.
  intros H. unfold store_add_to_backend, bind, call. rewrite H.
  destruct r as [[[location size'] checksum] metadata].
  destruct (is_None metadata); simpl; [left; eauto |].
  destruct (is_dict metadata) eqn:Edict; simpl.
  - unfold try_except, call.
    destruct (check_location_metadata metadata EmptyString) as [[] | e] eqn:Echk;
      [left; eauto |].
    apply check_location_metadata_raises in Echk.
    simpl. unfold isinstance, issubclass. rewrite Echk. simpl.
    destruct metadata; try discriminate. simpl. right; eauto.
  - destruct (py_str str metadata) as [text | e] eqn:Estr.
    + right; eauto.
    + right. exists e, w. split; [reflexivity |].
      right. now apply py_str_raises in Estr.
Qed.

(** C7. For [get], [delete] and [add], once the driver is resolved: when
    the driver's method raises [NotImplementedError] the dispatcher
    raises the error of that operation ([StoreGetNotSupported],
    [StoreDeleteNotSupported], [StoreAddNotSupported]); any other
    exception of the driver leaves the dispatcher as it is, and a value
    returned is returned (for [add], after the metadata check, whose
    [BackendException] is passed on as long as that class does not derive
    from [NotImplementedError]). *)
Theorem dispatcher_unsupported_only
    (uri : string) (offset : Z) (chunk_size : option Z) (ctx : context)
    (conf : Conf) (image_id : string) (data : list string) (size : Z)
    (scheme : option string) (w : world) (loc : Location)
    (info info_add : scheme_info)
    (Hloc : get_location_from_uri uri w = (Return loc, w))
    (Hreg : SCHEME_TO_CLS_MAP w !! scheme_of_uri uri = Some info)
    (Hadd : SCHEME_TO_CLS_MAP w !! default (default_store conf) scheme
            = Some info_add) :
  unsupported_only bases StoreGetNotSupported
    (store_get (store info) loc offset chunk_size ctx)
    (fst (get_from_backend bases get_location_from_uri uri offset chunk_size ctx w))
  /\
  unsupported_only bases StoreDeleteNotSupported
    (store_delete (store info) loc ctx)
    (fst (delete_from_backend bases get_location_from_uri uri ctx w))
  /\
  match store_add (store info_add) image_id data size with
  | Raise e =>
      if isinstance bases e NotImplementedError
      then fst (add_to_backend bases str conf image_id data size scheme ctx w)
           = Raise (Exc StoreAddNotSupported EmptyString)
      else fst (add_to_backend bases str conf image_id data size scheme ctx w)
           = Raise e
  | Return _ =>
      bases BackendException NotImplementedError = false ->
      fst (add_to_backend bases str conf image_id data size scheme ctx w)
      = fst (store_add_to_backend bases str image_id data size
               (store info_add) ctx w)
  end.
Proof.
  split; [| split].
  - unfold get_from_backend, bind. rewrite Hloc.
    unfold get_store_from_uri.
    rewrite (get_store_from_scheme_registered _ _ _ Hreg).
    unfold unsupported_only, try_except, call.
    destruct (store_get (store info) loc offset chunk_size ctx) as [v | e];
      [reflexivity |].
    simpl. destruct (isinstance bases e NotImplementedError); reflexivity.
  - unfold delete_from_backend, bind. rewrite Hloc.
    unfold get_store_from_uri.
    rewrite (get_store_from_scheme_registered _ _ _ Hreg).
    unfold unsupported_only, try_except, call.
    destruct (store_delete (store info) loc ctx) as [v | e]; [reflexivity |].
    simpl. destruct (isinstance bases e NotImplementedError); reflexivity.
  - assert (Hstore :
      get_store_from_scheme
        (match scheme with None => default_store conf | Some s => s end) w
      = (Return (store info_add), w)).
    { apply get_store_from_scheme_registered. now destruct scheme. }
    unfold add_to_backend, bind. rewrite Hstore.
    destruct (store_add (store info_add) image_id data size) as [r | e] eqn:Edrv.
    + intros Hbase.
      destruct (store_add_to_backend_validates image_id data size
                  (store info_add) ctx w r Edrv)
        as [(w' & Hrun) | (e & w' & Hrun & [Hcls | Hcls])].
      * rewrite (try_except_return _ _ _ _ _ Hrun), Hrun. reflexivity.
      * rewrite (try_except_one _ _ _ _ _ _ Hrun), Hrun.
        unfold isinstance, issubclass. rewrite Hcls. simpl.
        rewrite Hbase. reflexivity.
      * rewrite (try_except_one _ _ _ _ _ _ Hrun), Hrun.
        unfold isinstance, issubclass. rewrite Hcls. reflexivity.
    + rewrite (try_except_one _ _ _ _ _ _
                 (store_add_to_backend_driver_raises _ _ _ _ ctx w _ Edrv)).
      destruct (isinstance bases e NotImplementedError); reflexivity.
Qed.

(** C8. For a URI that resolves (it decodes, and the scheme of the
    decoded location is registered), when the driver's [set_acls] raises
    [NotImplementedError] the call returns normally, having logged one
    record at debug level. *)
Theorem set_acls_not_implemented_is_skipped
    (uri : string) (public : bool) (read_tenants : list string)
    (write_tenants : option (list string)) (ctx : context)
    (w w1 w2 : world) (loc loc' : Location) (info : scheme_info) (e : exn)
    (Hloc : get_location_from_uri uri w = (Return loc, w1))
    (Hloc' : get_location_from_uri uri w1 = (Return loc', w2))
    (Hreg : SCHEME_TO_CLS_MAP w2 !! store_name loc' = Some info)
    (Hdrv : store_set_acls (store info) loc public read_tenants
              (default [] write_tenants) = Raise e)
    (Hni : isinstance bases e NotImplementedError = true) :
  set_acls bases get_location_from_uri uri public read_tenants write_tenants
    ctx w =
  (Return tt,
   World (SCHEME_TO_CLS_MAP w2)
         (LOG w2 ++ [LogRecord DEBUG "Skipping store.set_acls... not implemented."])).
Proof.
  unfold set_acls, get_store_from_location, bind. rewrite Hloc, Hloc'.
  unfold ret. rewrite (get_store_from_scheme_registered _ _ _ Hreg).
  unfold try_except, call.
  replace (match write_tenants with None => [] | Some l => l end)
    with (default [] write_tenants) by now destruct write_tenants.
  rewrite Hdrv. simpl. rewrite Hni. reflexivity.
Qed.

(** What holds of C9. When the driver's [add] returns [None] as metadata,
    the tuple is returned as it is and nothing is logged. When it returns
    metadata that is neither [None] nor a dict and [str] of it succeeds,
    the call logs and raises the [BackendException] asking for a
    dictionary; when [str] of it raises, that exception leaves the call and
    nothing is logged. A bare text, which [check_location_metadata] on its
    own accepts, is refused in this way when it is ASCII. *)
Lemma store_add_to_backend_not_a_dict
    (image_id : string) (data : list string) (size : Z) (st : Store)
    (ctx : context) (w : world)
    (location : string) (size' : Z) (checksum : string) (metadata : pyval)
    (Hadd : store_add st image_id data size
            = Return (location, size', checksum, metadata)) :
  let msg := fun text =>
    "The storage driver " +:+ store_str st +:+
    " returned invalid  metadata " +:+ text +:+
    ". This must be a dictionary type" in
  (metadata = PNone ->
   store_add_to_backend bases str image_id data size st ctx w =
   (Return (location, size', checksum, PNone), w)) /\
  (metadata <> PNone -> is_dict metadata = false ->
   match py_str str metadata with
   | Return text =>
       store_add_to_backend bases str image_id data size st ctx w =
       (Raise (Exc BackendException (msg text)),
        World (SCHEME_TO_CLS_MAP w) (LOG w ++ [LogRecord ERROR (msg text)]))
   | Raise e =>
       store_add_to_backend bases str image_id data size st ctx w =
       (Raise e, w)
   end) /\
  (forall s, metadata = PUnicode s ->
   check_location_metadata metadata EmptyString = Return tt /\
   (is_ascii s = true ->
    store_add_to_backend bases str image_id data size st ctx w =
    (Raise (Exc BackendException (msg s)),
     World (SCHEME_TO_CLS_MAP w) (LOG w ++ [LogRecord ERROR (msg s)])))).
Proof.
  intros msg. unfold store_add_to_backend, bind, call. rewrite Hadd.
  split; [| split].
  - intros ->. reflexivity.
  - intros Hnone Hdict.
    destruct metadata; try contradiction; try discriminate;
      try reflexivity.
    simpl. destruct (is_ascii s); reflexivity.
  - intros s ->. split; [reflexivity |].
    intros Hascii. simpl. rewrite Hascii. reflexivity.
Qed.

(** C9. A driver whose [add] returns a text with a character outside
    ASCII as metadata, here [u'\xe9']: [check_location_metadata] accepts
    that text, and [store_add_to_backend] does not reach the log and the
    [BackendException] it is about to raise, because [str(metadata)] in
    the text of that exception raises [UnicodeEncodeError]. This is so
    under every exception hierarchy and for every driver. *)
Theorem store_add_to_backend_non_ascii_text :
  forall (bases : hierarchy) (str : pyval -> string) (st : Store)
         (image_id : string) (data : list string) (size : Z) (ctx : context)
         (w : world) (location : string) (size' : Z) (checksum : string),
    check_location_metadata (PUnicode e_acute) EmptyString = Return tt /\
    (store_add st image_id data size
       = Return (location, size', checksum, PUnicode e_acute) ->
     exists e,
       store_add_to_backend bases str image_id data size st ctx w
         = (Raise e, w) /\
       exc_class e = UnicodeEncodeError).
Proof.
  intros bases0 str0 st image_id data size ctx w location size' checksum.
  split; [reflexivity |]. intros Hadd.
  unfold store_add_to_backend, bind, call. rewrite Hadd.
  eexists. split; reflexivity.
Qed.

(** C1, as the code has it. [safe_delete_from_backend] returns what
    [delete_from_backend] returns; when that raises an instance of
    [NotFound], of [StoreDeleteNotSupported] or of [UnsupportedBackend]
    it logs one record (a warning for the first two, an error for the
    third) and returns [None]; any other exception leaves the call. *)
Theorem safe_delete_from_backend_catches_three
    (uri image_id : string) (ctx : context) (w : world) :
  match delete_from_backend bases get_location_from_uri uri ctx w with
  | (Return v, w') =>
      safe_delete_from_backend bases get_location_from_uri uri image_id ctx w
      = (Return v, w')
  | (Raise e, w') =>
      if isinstance bases e NotFound then
        safe_delete_from_backend bases get_location_from_uri uri image_id ctx w
        = (Return PNone,
           World (SCHEME_TO_CLS_MAP w')
                 (LOG w' ++ [LogRecord WARN ("Failed to delete image " +:+
                               image_id +:+ " in store from URI")]))
      else if isinstance bases e StoreDeleteNotSupported then
        safe_delete_from_backend bases get_location_from_uri uri image_id ctx w
        = (Return PNone,
           World (SCHEME_TO_CLS_MAP w') (LOG w' ++ [LogRecord WARN (exc_args e)]))
      else if isinstance bases e UnsupportedBackend then
        safe_delete_from_backend bases get_location_from_uri uri image_id ctx w
        = (Return PNone,
           World (SCHEME_TO_CLS_MAP w')
                 (LOG w' ++ [LogRecord ERROR ("Failed to delete image " +:+
                               image_id +:+ " from store (" +:+
                               class_name (exc_class e) +:+ ")")]))
      else
        safe_delete_from_backend bases get_location_from_uri uri image_id ctx w
        = (Raise e, w')
  end.
Proof.
  unfold safe_delete_from_backend, try_except.
  destruct (delete_from_backend bases get_location_from_uri uri ctx w)
    as [[v | e] w']; [reflexivity |].
  simpl.
  destruct (isinstance bases e NotFound); [reflexivity |].
  destruct (isinstance bases e StoreDeleteNotSupported); [reflexivity |].
  destruct (isinstance bases e UnsupportedBackend); reflexivity.
Qed.

(** A URI whose scheme is not registered: the [UnknownScheme] of the
    lookup leaves [safe_delete_from_backend] unless the exceptions module
    derives it from one of the three classes caught. *)
Lemma safe_delete_from_backend_unknown_scheme
    (uri image_id : string) (ctx : context) (w : world) (loc : Location) :
  get_location_from_uri uri w = (Return loc, w) ->
  SCHEME_TO_CLS_MAP w !! scheme_of_uri uri = None ->
  bases UnknownScheme NotFound = false ->
  bases UnknownScheme StoreDeleteNotSupported = false ->
  bases UnknownScheme UnsupportedBackend = false ->
  safe_delete_from_backend bases get_location_from_uri uri image_id ctx w
  = (Raise (Exc UnknownScheme (scheme_of_uri uri)), w).
Proof.
  intros Hloc Hreg H1 H2 H3.
  unfold safe_delete_from_backend, try_except, delete_from_backend, bind.
  rewrite Hloc. unfold get_store_from_uri.
  rewrite (get_store_from_scheme_unknown _ _ Hreg). simpl.
  unfold isinstance, issubclass. simpl. rewrite H1, H2, H3. reflexivity.
Qed.

End Dispatcher.

Lemma dispatcher_unsupported_only_witness :
  colon_location "bare://x" (registry_of [("bare", bare_store)])
    = (Return {| store_name := "bare"; store_location := "bare://x" |},
       registry_of [("bare", bare_store)]) /\
  SCHEME_TO_CLS_MAP (registry_of [("bare", bare_store)]) !! scheme_of_uri "bare://x"
    = Some {| store := bare_store; location_class := "StoreLocation" |} /\
  fst (get_from_backend flat colon_location "bare://x" 0 None None
         (registry_of [("bare", bare_store)]))
    = Raise (Exc StoreGetNotSupported EmptyString) /\
  fst (delete_from_backend flat colon_location "bare://x" None
         (registry_of [("bare", bare_store)]))
    = Raise (Exc StoreDeleteNotSupported EmptyString) /\
  fst (add_to_backend flat sample_str {| stores := ["bare"]; default_store := "bare" |}
         "x" ["ab"] 2 None None (registry_of [("bare", bare_store)]))
    = Raise (Exc StoreAddNotSupported EmptyString).
Proof.
  assert (Hloc : colon_location "bare://x" (registry_of [("bare", bare_store)])
    = (Return {| store_name := "bare"; store_location := "bare://x" |},
       registry_of [("bare", bare_store)])) by (vm_compute; reflexivity).
  assert (Hreg : SCHEME_TO_CLS_MAP (registry_of [("bare", bare_store)])
                   !! scheme_of_uri "bare://x"
    = Some {| store := bare_store; location_class := "StoreLocation" |})
    by (vm_compute; reflexivity).
  split; [exact Hloc |]. split; [exact Hreg |].
  exact (dispatcher_unsupported_only flat colon_location sample_str
           "bare://x" 0 None None {| stores := ["bare"]; default_store := "bare" |}
           "x" ["ab"] 2 None (registry_of [("bare", bare_store)]) _ _ _
           Hloc Hreg Hreg).
Defined.

Lemma set_acls_not_implemented_is_skipped_witness :
  set_acls flat colon_location "bare://x" false [] None None
    (registry_of [("bare", bare_store)]) =
  (Return tt,
   World (SCHEME_TO_CLS_MAP (registry_of [("bare", bare_store)]))
         [LogRecord DEBUG "Skipping store.set_acls... not implemented."]).
Proof.
  apply (set_acls_not_implemented_is_skipped flat colon_location
           "bare://x" false [] None None
           (registry_of [("bare", bare_store)]) (registry_of [("bare", bare_store)])
           (registry_of [("bare", bare_store)])
           {| store_name := "bare"; store_location := "bare://x" |}
           {| store_name := "bare"; store_location := "bare://x" |}
           {| store := bare_store; location_class := "StoreLocation" |}
           (Exc NotImplementedError EmptyString));
    vm_compute; reflexivity.
Defined.

Lemma store_add_to_backend_not_a_dict_witness :
  store_add text_store "x" ["ab"] 2
    = Return ("text://x", 2, EmptyString, PUnicode "note") /\
  check_location_metadata (PUnicode "note") EmptyString = Return tt /\
  store_add_to_backend flat sample_str "x" ["ab"] 2 text_store None (World ∅ []) =
  (Raise (Exc BackendException
            "The storage driver text returned invalid  metadata note. This must be a dictionary type"),
   World ∅ [LogRecord ERROR
              "The storage driver text returned invalid  metadata note. This must be a dictionary type"]).
Proof.
  split; [reflexivity |]. split; [reflexivity |].
  exact (proj2 (proj2 (proj2 (store_add_to_backend_not_a_dict flat sample_str
                         "x" ["ab"] 2 text_store None (World ∅ [])
                         "text://x" 2 EmptyString (PUnicode "note") eq_refl))
                  "note" eq_refl) eq_refl).
Defined.

Lemma store_add_to_backend_non_ascii_text_witness :
  store_add (tagged_store (PUnicode e_acute)) "x" ["ab"] 2
    = Return ("tagged://x", 2, EmptyString, PUnicode e_acute) /\
  exists e,
    store_add_to_backend flat sample_str "x" ["ab"] 2
      (tagged_store (PUnicode e_acute)) None (World ∅ [])
      = (Raise e, World ∅ []) /\
    exc_class e = UnicodeEncodeError.
Proof.
  split; [reflexivity |].
  exact (proj2 (store_add_to_backend_non_ascii_text flat sample_str
                  (tagged_store (PUnicode e_acute)) "x" ["ab"] 2 None
                  (World ∅ []) "tagged://x" 2 EmptyString)
           eq_refl).
Defined.

(** C1, as stated, fails: a driver whose [delete] raises an exception of
    another class, here a builtin [IOError], makes
    [safe_delete_from_backend] raise it. *)
Lemma safe_delete_from_backend_io_error_escapes :
  safe_delete_from_backend flat colon_location "file:///srv/images/1" "1" None
    (registry_of [("file", failing_store)]) =
  (Raise (Exc IOError "Permission denied"), registry_of [("file", failing_store)]).
Proof. vm_compute. reflexivity. Qed.

(** The same whatever the hierarchy of [glance.store.exceptions]: a builtin
    exception is an instance of none of the three classes caught. *)
Lemma safe_delete_from_backend_builtin_escapes (bases : hierarchy) :
  fst (safe_delete_from_backend bases colon_location "file:///srv/images/1" "1"
         None (registry_of [("file", failing_store)])) =
  Raise (Exc IOError "Permission denied").
Proof. vm_compute. reflexivity. Qed.

(** ** The adapter *)



Lemma iterate_all (n : nat) :
  forall self : Indexable.t,
    (length (Indexable.pending (Indexable.wrapped self)) < n)%nat ->
    map fst (Indexable.iterate n self) = Indexable.pending (Indexable.wrapped self) /\
    Forall (fun y => Indexable.chunk (snd y) = Some (fst y) /\
                     Indexable.cursor (snd y) = Indexable.cursor self)
           (Indexable.iterate n self).
Proof.
  induction n as [| n IH]; intros self Hn; [lia |].
  simpl. unfold Indexable.__iter__.
  destruct self as [[pending len] size cursor chunk]. simpl in *.
  destruct pending as [| c rest]; [split; [reflexivity | constructor] |].
  simpl in Hn.
  destruct (IH (Indexable.Make (Indexable.Source rest len) size cursor (Some c)))
    as [Hyield Hstate]; [simpl; lia |].
  split.
  - simpl. f_equal. exact Hyield.
  - constructor; [split; reflexivity | exact Hstate].
Qed.

(** C4, as stated, fails: iterating caches the chunk it yields but does not
    move the cursor. *)
Lemma iter_leaves_cursor :
  ~ (forall (self : Indexable.t) c self',
       Indexable.__iter__ self = Some (c, self') ->
       Indexable.chunk self' = Some c /\
       Indexable.cursor self' = Indexable.cursor self + Py.len c).
Proof.
  intros H.
  destruct (H ab_cd "ab" _ eq_refl) as [_ Hcursor].
  vm_compute in Hcursor. discriminate.
Qed.

(** C4, as the code has it. Iterating the adapter until its source is
    exhausted yields the chunks of the source, in order; when each chunk is
    yielded it is the cached chunk, and the cursor is where it was before
    the iteration began. *)
Theorem iterate_yields_source_and_caches
    (self : Indexable.t) (n : nat)
    (Hn : (length (Indexable.pending (Indexable.wrapped self)) < n)%nat) :
  map fst (Indexable.iterate n self) = Indexable.pending (Indexable.wrapped self) /\
  Forall (fun y => Indexable.chunk (snd y) = Some (fst y) /\
                   Indexable.cursor (snd y) = Indexable.cursor self)
         (Indexable.iterate n self).
Proof. now apply iterate_all. Qed.

Lemma iterate_yields_source_and_caches_witness :
  (length (Indexable.pending (Indexable.wrapped ab_cd)) < 3)%nat /\
  map fst (Indexable.iterate 3 ab_cd) = ["ab"; "cd"] /\
  Forall (fun y => Indexable.chunk (snd y) = Some (fst y) /\
                   Indexable.cursor (snd y) = 0)
         (Indexable.iterate 3 ab_cd).
Proof.
  assert (Hn : (length (Indexable.pending (Indexable.wrapped ab_cd)) < 3)%nat)
    by (simpl; lia).
  split; [exact Hn |].
  exact (iterate_yields_source_and_caches ab_cd 3 Hn).
Defined.




(** C10. At the end of the stream: when the access goes to [another] and
    that returns an empty or absent chunk, [__getitem__] returns that very
    value, caches it, and leaves the cursor where [another] left it,
    wherever the cursor stood. *)
Theorem getitem_end_of_stream
    (another : Indexable.t -> outcome (option string) * Indexable.t)
    (self self' : Indexable.t) (i : Indexable.index) (start : Z)
    (c : option string)
    (Hstart : start_of i = Some start)
    (Hpast : Indexable.cursor self <= start)
    (Hseam : another self = (Return c, self'))
    (Hend : c = None \/ c = Some EmptyString) :
  Indexable.__getitem__ another self i =
    (Return c,
     Indexable.Make (Indexable.wrapped self') (Indexable.size self')
                    (Indexable.cursor self') c) /\
  (Indexable.cursor self' = Indexable.cursor self ->
   Indexable.cursor (snd (Indexable.__getitem__ another self i))
   = Indexable.cursor self).
Proof.
  assert (Hi : match i with
               | Indexable.Slice start _ => start
               | Indexable.Int i => Some i
               end = Some start) by exact Hstart.
  assert (Hrun : Indexable.__getitem__ another self i =
    (Return c,
     Indexable.Make (Indexable.wrapped self') (Indexable.size self')
                    (Indexable.cursor self') c)).
  { unfold Indexable.__getitem__. rewrite Hi, Hseam.
    destruct (Z.ltb_spec start (Indexable.cursor self)); [lia |].
    destruct Hend as [-> | ->]; reflexivity. }
  split; [exact Hrun |].
  intros Hsame. rewrite Hrun. simpl. exact Hsame.
Qed.

Lemma getitem_end_of_stream_witness :
  Indexable.__getitem__ Indexable.another_next
    (Indexable.Make (Indexable.Source [] None) 4 4 (Some "cd"))
    (Indexable.Int 4) =
  (Return (Some EmptyString), Indexable.Make (Indexable.Source [] None) 4 4 (Some EmptyString)).
Proof.
  exact (proj1 (getitem_end_of_stream Indexable.another_next
           (Indexable.Make (Indexable.Source [] None) 4 4 (Some "cd"))
           (Indexable.Make (Indexable.Source [] None) 4 4 (Some "cd"))
           (Indexable.Int 4) 4 (Some EmptyString) eq_refl ltac:(simpl; lia) eq_refl
           (or_intror eq_refl))).
Defined.

(** * Further properties *)

(** ** Scheme extraction *)

Lemma find_from_range (c : ascii) (s : string) :
  forall i, Py.find_from c s i = -1 \/
            (i <= Py.find_from c s i < i + Py.len s).
Proof.
  unfold Py.len. induction s as [| a s IH]; intros i; [left; reflexivity |].
  cbn [Py.find_from String.length]. destruct (Ascii.eqb a c); [right; lia |].
  destruct (IH (i + 1)) as [-> | H]; [left; reflexivity | right; lia].
Qed.

(** X1. For a URI of the usual shape, a scheme without slash followed by
    [:/] and anything, [get_store_from_uri] looks up exactly the scheme: it
    returns the driver registered for it, and raises [UnknownScheme] with
    that scheme when none is. The registry and the log are not touched. *)
Theorem get_store_from_uri_usual_shape
    (scheme rest : string) (w : world)
    (Hscheme : Py.find scheme "/" = -1) :
  get_store_from_uri (scheme +:+ String ":" (String "/" rest)) w =
  match SCHEME_TO_CLS_MAP w !! scheme with
  | Some info => (Return (store info), w)
  | None => (Raise (Exc UnknownScheme scheme), w)
  end.
Proof.
  unfold get_store_from_uri. rewrite scheme_of_uri_colon_slash by exact Hscheme.
  destruct (SCHEME_TO_CLS_MAP w !! scheme) as [info |] eqn:E.
  - now apply get_store_from_scheme_registered.
  - now apply get_store_from_scheme_unknown.
Qed.

Lemma get_store_from_uri_usual_shape_witness :
  Py.find "swift+https" "/" = -1 /\
  get_store_from_uri "swift+https://auth/v1/container/obj"
    (registry_of [("swift+https", mem_store)]) =
  (Return mem_store, registry_of [("swift+https", mem_store)]).
Proof.
  split; [reflexivity |].
  exact (get_store_from_uri_usual_shape "swift+https" "/auth/v1/container/obj"
           (registry_of [("swift+https", mem_store)]) eq_refl).
Defined.

(** X2. What [uri[0:uri.find('/') - 1]] is in each case. When the first
    slash is at a position [k >= 1], it is the first [k - 1] characters,
    so the character just before the slash is dropped whatever it is.
    When the URI begins with a slash, it is the URI without its last
    character. When the URI has no slash, it is the URI without its last
    two characters. *)
Theorem scheme_of_uri_cases (uri : string) :
  (0 < Py.find uri "/" ->
   scheme_of_uri uri = substring 0 (Z.to_nat (Py.find uri "/" - 1)) uri) /\
  (Py.find uri "/" = 0 ->
   scheme_of_uri uri = substring 0 (String.length uri - 1) uri) /\
  (Py.find uri "/" = -1 ->
   scheme_of_uri uri = substring 0 (String.length uri - 2) uri).
Proof.
  unfold scheme_of_uri, Py.slice, Py.bound, Py.find.
  pose proof (find_from_range "/" uri 0) as Hrange. unfold Py.len in *.
  replace (0 <? 0) with false by reflexivity.
  rewrite Z.min_l by lia. replace (Z.to_nat 0) with 0%nat by reflexivity.
  repeat split; intros Hk.
  - destruct (Z.ltb_spec (Py.find_from "/" uri 0 - 1) 0); [lia |].
    rewrite Z.min_l by lia. f_equal. lia.
  - rewrite Hk. destruct (Z.ltb_spec (0 - 1) 0); [| lia]. f_equal. lia.
  - rewrite Hk. destruct (Z.ltb_spec (-1 - 1) 0); [| lia]. f_equal. lia.
Qed.

Lemma scheme_of_uri_cases_witness :
  (0 < Py.find "file:a/b" "/" /\ scheme_of_uri "file:a/b" = "file:") /\
  (Py.find "/srv/img" "/" = 0 /\ scheme_of_uri "/srv/img" = "/srv/im") /\
  (Py.find "mem:abc" "/" = -1 /\ scheme_of_uri "mem:abc" = "mem:a").
Proof.
  split; [| split].
  - split; [reflexivity |].
    exact (proj1 (scheme_of_uri_cases "file:a/b") eq_refl).
  - split; [reflexivity |].
    exact (proj1 (proj2 (scheme_of_uri_cases "/srv/img")) eq_refl).
  - split; [reflexivity |].
    exact (proj2 (proj2 (scheme_of_uri_cases "mem:abc")) eq_refl).
Defined.

(** ** More on the dispatcher *)

Section DispatcherEdges.

Variable bases : hierarchy.
Variable get_location_from_uri : string -> M Location.
Variable str : pyval -> string.

Lemma isinstance_own_class (c : exn_class) (args : string) :
  isinstance bases (Exc c args) c = true.
Proof.
  unfold isinstance, issubclass. simpl.
  now rewrite bool_decide_eq_true_2.
Qed.

(** X3. [verify_default_store] returns normally, changing nothing, when the
    default scheme is registered; otherwise the [UnknownScheme] of the
    lookup is replaced by a [RuntimeError] naming the scheme. This holds
    under every exception hierarchy. *)
Theorem verify_default_store_outcome (conf : Conf) (w : world) :
  verify_default_store bases conf w =
  match SCHEME_TO_CLS_MAP w !! default_store conf with
  | Some _ => (Return tt, w)
  | None =>
      (Raise (Exc RuntimeError
                ("Store for scheme " +:+ default_store conf +:+ " not found")),
       w)
  end.
Proof.
  unfold verify_default_store, try_except, bind.
  destruct (SCHEME_TO_CLS_MAP w !! default_store conf) as [info |] eqn:E.
  - rewrite (get_store_from_scheme_registered _ _ _ E). reflexivity.
  - rewrite (get_store_from_scheme_unknown _ _ E).
    cbv beta iota delta [List.find fst snd].
    rewrite isinstance_own_class. reflexivity.
Qed.

(** X4. [get_size_from_backend] hands back whatever the driver's
    [get_size] returns or raises: unlike [get] and [delete], a
    [NotImplementedError] of the driver is not replaced by an error of the
    dispatcher. *)
Theorem get_size_from_backend_passes_through
    (uri : string) (ctx : context) (w w1 : world) (loc : Location)
    (info : scheme_info)
    (Hloc : get_location_from_uri uri w = (Return loc, w1))
    (Hreg : SCHEME_TO_CLS_MAP w1 !! scheme_of_uri uri = Some info) :
  get_size_from_backend get_location_from_uri uri ctx w =
  (store_get_size (store info) loc ctx, w1).
Proof.
  unfold get_size_from_backend, bind. rewrite Hloc.
  unfold get_store_from_uri.
  rewrite (get_store_from_scheme_registered _ _ _ Hreg).
  unfold call. now destruct (store_get_size (store info) loc ctx).
Qed.

(** X5. When the URI cannot be decoded, the exception of the location
    codec leaves [get_from_backend], [get_size_from_backend],
    [delete_from_backend] and [set_acls] as it is: no driver is looked up,
    and no handler of these functions applies to it. *)
Theorem decode_failure_propagates
    (uri : string) (offset : Z) (chunk_size : option Z) (ctx : context)
    (public : bool) (read_tenants : list string)
    (write_tenants : option (list string))
    (w w1 : world) (e : exn)
    (Hloc : get_location_from_uri uri w = (Raise e, w1)) :
  get_from_backend bases get_location_from_uri uri offset chunk_size ctx w
    = (Raise e, w1) /\
  get_size_from_backend get_location_from_uri uri ctx w = (Raise e, w1) /\
  delete_from_backend bases get_location_from_uri uri ctx w = (Raise e, w1) /\
  set_acls bases get_location_from_uri uri public read_tenants write_tenants
    ctx w = (Raise e, w1).
Proof.
  unfold get_from_backend, get_size_from_backend, delete_from_backend,
    set_acls, bind.
  rewrite Hloc. repeat split; reflexivity.
Qed.

(** X6. When the URI decodes but the scheme sliced from it is not
    registered, [get_from_backend], [get_size_from_backend] and
    [delete_from_backend] raise [UnknownScheme] with the sliced text, under
    every exception hierarchy: the lookup is made before the [try]. *)
Theorem unregistered_scheme_raises_unknown_scheme
    (uri : string) (offset : Z) (chunk_size : option Z) (ctx : context)
    (w w1 : world) (loc : Location)
    (Hloc : get_location_from_uri uri w = (Return loc, w1))
    (Hreg : SCHEME_TO_CLS_MAP w1 !! scheme_of_uri uri = None) :
  get_from_backend bases get_location_from_uri uri offset chunk_size ctx w
    = (Raise (Exc UnknownScheme (scheme_of_uri uri)), w1) /\
  get_size_from_backend get_location_from_uri uri ctx w
    = (Raise (Exc UnknownScheme (scheme_of_uri uri)), w1) /\
  delete_from_backend bases get_location_from_uri uri ctx w
    = (Raise (Exc UnknownScheme (scheme_of_uri uri)), w1).
Proof.
  unfold get_from_backend, get_size_from_backend, delete_from_backend, bind.
  rewrite Hloc. unfold get_store_from_uri.
  rewrite (get_store_from_scheme_unknown _ _ Hreg).
  repeat split; reflexivity.
Qed.

(** X7. [add_to_backend] on a scheme that is not registered, given or
    taken from [default_store], raises [UnknownScheme] for that scheme
    without calling any driver, under every exception hierarchy. *)
Theorem add_to_backend_unregistered_scheme
    (conf : Conf) (image_id : string) (data : list string) (size : Z)
    (scheme : option string) (ctx : context) (w : world)
    (Hreg : SCHEME_TO_CLS_MAP w !! default (default_store conf) scheme = None) :
  add_to_backend bases str conf image_id data size scheme ctx w =
  (Raise (Exc UnknownScheme (default (default_store conf) scheme)), w).
Proof.
  unfold add_to_backend, bind.
  replace (match scheme with None => default_store conf | Some s => s end)
    with (default (default_store conf) scheme) by now destruct scheme.
  rewrite (get_store_from_scheme_unknown _ _ Hreg). reflexivity.
Qed.

Lemma store_add_to_backend_valid_dict
    (image_id : string) (data : list string) (size : Z) (st : Store)
    (ctx : context) (w : world)
    (location : string) (size' : Z) (checksum : string)
    (items : list (string * pyval)) :
  store_add st image_id data size
    = Return (location, size', checksum, PDict items) ->
  metadata_ok (PDict items) = true ->
  store_add_to_backend bases str image_id data size st ctx w =
  (Return (location, size', checksum, PDict items), w).
Proof.
  intros Hadd Hok.
  pose proof (check_accepts (PDict items) EmptyString Hok) as Hchk.
  unfold store_add_to_backend, bind, call, try_except. rewrite Hadd.
  cbv beta iota delta [is_None is_dict negb]. rewrite Hchk. reflexivity.
Qed.


(** X9. [add_to_backend] returns the driver's tuple, and changes neither
    the registry nor the log, when the scheme is registered and the
    metadata in the tuple is [None] or a dict whose leaves are all text. *)
Theorem add_to_backend_returns_tuple
    (conf : Conf) (image_id : string) (data : list string) (size : Z)
    (scheme : option string) (ctx : context) (w : world) (info : scheme_info)
    (location : string) (size' : Z) (checksum : string) (metadata : pyval)
    (Hreg : SCHEME_TO_CLS_MAP w !! default (default_store conf) scheme
            = Some info)
    (Hadd : store_add (store info) image_id data size
            = Return (location, size', checksum, metadata))
    (Hmeta : metadata = PNone \/
             (is_dict metadata = true /\ metadata_ok metadata = true)) :
  add_to_backend bases str conf image_id data size scheme ctx w =
  (Return (location, size', checksum, metadata), w).
Proof.
  unfold add_to_backend, bind.
  replace (match scheme with None => default_store conf | Some s => s end)
    with (default (default_store conf) scheme) by now destruct scheme.
  rewrite (get_store_from_scheme_registered _ _ _ Hreg).
  apply try_except_return.
  destruct Hmeta as [-> | [Hdict Hok]].
  - unfold store_add_to_backend, bind, call. rewrite Hadd. reflexivity.
  - destruct metadata; try discriminate.
    now apply store_add_to_backend_valid_dict.
Qed.

(** X10. [set_acls] on a URI that resolves: when the driver's [set_acls]
    returns, the call returns and logs nothing; when it raises an
    exception that is not a [NotImplementedError], that exception leaves
    the call. The driver is the one registered under the [store_name] of
    the decoded location, not under the text sliced from the URI. *)
Theorem set_acls_other_outcomes
    (uri : string) (public : bool) (read_tenants : list string)
    (write_tenants : option (list string)) (ctx : context)
    (w w1 w2 : world) (loc loc' : Location) (info : scheme_info)
    (Hloc : get_location_from_uri uri w = (Return loc, w1))
    (Hloc' : get_location_from_uri uri w1 = (Return loc', w2))
    (Hreg : SCHEME_TO_CLS_MAP w2 !! store_name loc' = Some info) :
  match store_set_acls (store info) loc public read_tenants
          (default [] write_tenants) with
  | Return _ =>
      set_acls bases get_location_from_uri uri public read_tenants
        write_tenants ctx w = (Return tt, w2)
  | Raise e =>
      isinstance bases e NotImplementedError = false ->
      set_acls bases get_location_from_uri uri public read_tenants
        write_tenants ctx w = (Raise e, w2)
  end.
Proof.
  unfold set_acls, get_store_from_location, bind. rewrite Hloc, Hloc'.
  unfold ret. rewrite (get_store_from_scheme_registered _ _ _ Hreg).
  unfold try_except, call.
  replace (match write_tenants with None => [] | Some l => l end)
    with (default [] write_tenants) by now destruct write_tenants.
  destruct (store_set_acls (store info) loc public read_tenants
              (default [] write_tenants)) as [[] | e]; [reflexivity |].
  intros Hni. simpl. rewrite Hni. reflexivity.
Qed.

(** X11. [safe_delete_from_backend] on a URI that resolves to a driver
    whose [delete] raises [NotImplementedError] does not raise: the
    [StoreDeleteNotSupported] that [delete_from_backend] makes of it is
    caught, one warning is logged, and [None] is returned, under every
    exception hierarchy. *)
Theorem safe_delete_from_backend_not_implemented
    (uri image_id : string) (ctx : context) (w w1 : world) (loc : Location)
    (info : scheme_info) (e : exn)
    (Hloc : get_location_from_uri uri w = (Return loc, w1))
    (Hreg : SCHEME_TO_CLS_MAP w1 !! scheme_of_uri uri = Some info)
    (Hdrv : store_delete (store info) loc ctx = Raise e)
    (Hni : isinstance bases e NotImplementedError = true) :
  exists text,
    safe_delete_from_backend bases get_location_from_uri uri image_id ctx w =
    (Return PNone,
     World (SCHEME_TO_CLS_MAP w1) (LOG w1 ++ [LogRecord WARN text])).
Proof.
  assert (Hdel : delete_from_backend bases get_location_from_uri uri ctx w =
                 (Raise (Exc StoreDeleteNotSupported EmptyString), w1)).
  { unfold delete_from_backend, bind. rewrite Hloc. unfold get_store_from_uri.
    rewrite (get_store_from_scheme_registered _ _ _ Hreg).
    unfold try_except, call. rewrite Hdrv. simpl. rewrite Hni. reflexivity. }
  unfold safe_delete_from_backend, try_except. rewrite Hdel.
  cbv beta iota delta [List.find fst snd].
  destruct (isinstance bases (Exc StoreDeleteNotSupported EmptyString) NotFound).
  - eexists. reflexivity.
  - rewrite isinstance_own_class. eexists. reflexivity.
Qed.

End DispatcherEdges.

Lemma get_size_from_backend_passes_through_witness :
  get_size_from_backend colon_location "mem://x" None
    (registry_of [("mem", mem_store)]) =
  (Return 5, registry_of [("mem", mem_store)]).
Proof.
  apply (get_size_from_backend_passes_through colon_location "mem://x" None
           (registry_of [("mem", mem_store)]) (registry_of [("mem", mem_store)])
           {| store_name := "mem"; store_location := "mem://x" |}
           {| store := mem_store; location_class := "StoreLocation" |});
    vm_compute; reflexivity.
Defined.

Lemma decode_failure_propagates_witness :
  colon_location "swift://x" (registry_of [("mem", mem_store)])
    = (Raise (Exc UnknownScheme "swift"), registry_of [("mem", mem_store)]) /\
  delete_from_backend flat colon_location "swift://x" None
    (registry_of [("mem", mem_store)])
    = (Raise (Exc UnknownScheme "swift"), registry_of [("mem", mem_store)]).
Proof.
  assert (Hloc : colon_location "swift://x" (registry_of [("mem", mem_store)])
    = (Raise (Exc UnknownScheme "swift"), registry_of [("mem", mem_store)]))
    by (vm_compute; reflexivity).
  split; [exact Hloc |].
  exact (proj1 (proj2 (proj2
           (decode_failure_propagates flat colon_location "swift://x" 0 None
              None false [] None _ _ _ Hloc)))).
Defined.

Lemma unregistered_scheme_raises_unknown_scheme_witness :
  colon_location "mem:abc" (registry_of [("mem", mem_store)])
    = (Return {| store_name := "mem"; store_location := "mem:abc" |},
       registry_of [("mem", mem_store)]) /\
  SCHEME_TO_CLS_MAP (registry_of [("mem", mem_store)]) !! scheme_of_uri "mem:abc"
    = None /\
  get_size_from_backend colon_location "mem:abc" None
    (registry_of [("mem", mem_store)])
    = (Raise (Exc UnknownScheme (scheme_of_uri "mem:abc")),
       registry_of [("mem", mem_store)]).
Proof.
  assert (Hloc : colon_location "mem:abc" (registry_of [("mem", mem_store)])
    = (Return {| store_name := "mem"; store_location := "mem:abc" |},
       registry_of [("mem", mem_store)])) by (vm_compute; reflexivity).
  assert (Hreg : SCHEME_TO_CLS_MAP (registry_of [("mem", mem_store)])
                   !! scheme_of_uri "mem:abc" = None)
    by (vm_compute; reflexivity).
  split; [exact Hloc |]. split; [exact Hreg |].
  exact (proj1 (proj2
           (unregistered_scheme_raises_unknown_scheme flat colon_location
              "mem:abc" 0 None None _ _ _ Hloc Hreg))).
Defined.

Lemma add_to_backend_unregistered_scheme_witness :
  add_to_backend flat sample_str {| stores := ["file"]; default_store := "file" |}
    "x" ["ab"] 2 None None (registry_of [("mem", mem_store)]) =
  (Raise (Exc UnknownScheme "file"), registry_of [("mem", mem_store)]).
Proof.
  apply (add_to_backend_unregistered_scheme flat sample_str
           {| stores := ["file"]; default_store := "file" |} "x" ["ab"] 2 None
           None (registry_of [("mem", mem_store)])).
  vm_compute. reflexivity.
Defined.


Lemma add_to_backend_returns_tuple_witness :
  add_to_backend flat sample_str
    {| stores := ["tagged"]; default_store := "tagged" |} "x" ["ab"] 2 None None
    (registry_of [("tagged", tagged_store (PDict [("k", PUnicode "v")]))]) =
  (Return ("tagged://x", 2, EmptyString, PDict [("k", PUnicode "v")]),
   registry_of [("tagged", tagged_store (PDict [("k", PUnicode "v")]))]).
Proof.
  apply (add_to_backend_returns_tuple flat sample_str
           {| stores := ["tagged"]; default_store := "tagged" |} "x" ["ab"] 2
           None None
           (registry_of [("tagged", tagged_store (PDict [("k", PUnicode "v")]))])
           {| store := tagged_store (PDict [("k", PUnicode "v")]);
              location_class := "StoreLocation" |}).
  - vm_compute. reflexivity.
  - reflexivity.
  - right. split; reflexivity.
Defined.

Lemma set_acls_other_outcomes_witness :
  SCHEME_TO_CLS_MAP (registry_of [("mem", mem_store)]) !! scheme_of_uri "mem:abc"
    = None /\
  set_acls flat colon_location "mem:abc" true ["tenant"] None None
    (registry_of [("mem", mem_store)]) =
  (Return tt, registry_of [("mem", mem_store)]).
Proof.
  split; [vm_compute; reflexivity |].
  apply (set_acls_other_outcomes flat colon_location "mem:abc" true ["tenant"]
           None None
           (registry_of [("mem", mem_store)]) (registry_of [("mem", mem_store)])
           (registry_of [("mem", mem_store)])
           {| store_name := "mem"; store_location := "mem:abc" |}
           {| store_name := "mem"; store_location := "mem:abc" |}
           {| store := mem_store; location_class := "StoreLocation" |});
    vm_compute; reflexivity.
Defined.

Lemma safe_delete_from_backend_not_implemented_witness :
  exists text,
    safe_delete_from_backend flat colon_location "bare://x" "x" None
      (registry_of [("bare", bare_store)]) =
    (Return PNone,
     World (SCHEME_TO_CLS_MAP (registry_of [("bare", bare_store)]))
           (LOG (registry_of [("bare", bare_store)]) ++ [LogRecord WARN text])).
Proof.
  apply (safe_delete_from_backend_not_implemented flat colon_location
           "bare://x" "x" None
           (registry_of [("bare", bare_store)]) (registry_of [("bare", bare_store)])
           {| store_name := "bare"; store_location := "bare://x" |}
           {| store := bare_store; location_class := "StoreLocation" |}
           (Exc NotImplementedError EmptyString));
    vm_compute; reflexivity.
Defined.

(** ** More on loading *)

Section Loading.

Variable bases : hierarchy.
Variable DriverManager : Conf -> string -> outcome Store.

(** A resumption of [_load_stores] never touches the registry. *)
Lemma _load_stores_resume_keeps_registry conf entry w :
  SCHEME_TO_CLS_MAP (snd (_load_stores_resume bases DriverManager conf entry w))
  = SCHEME_TO_CLS_MAP w.
Proof.
  unfold _load_stores_resume, _load_store, try_except, bind, log, call, ret.
  cbv beta iota delta [List.find fst snd].
  destruct (DriverManager conf entry) as [st | e]; [reflexivity |].
  cbv beta iota delta [List.find fst snd].
  destruct (isinstance bases e RuntimeError); [reflexivity |].
  cbv beta iota delta [List.find fst snd].
  destruct (isinstance bases e BadStoreConfiguration); reflexivity.
Qed.

Lemma _load_stores_resume_skips conf entry e w :
  DriverManager conf entry = Raise e ->
  isinstance bases e RuntimeError = true \/
  isinstance bases e BadStoreConfiguration = true ->
  exists logs,
    _load_stores_resume bases DriverManager conf entry w =
    (Return None, World (SCHEME_TO_CLS_MAP w) (LOG w ++ logs)).
Proof.
  intros Hload Hcls.
  destruct (isinstance bases e RuntimeError) eqn:Hrt.
  - rewrite (_load_stores_resume_runtime_error _ _ _ _ _ w Hload Hrt).
    rewrite <- app_assoc. eexists. reflexivity.
  - destruct Hcls as [Hcls | Hcls]; [discriminate |].
    rewrite (_load_stores_resume_bad_configuration _ _ _ _ _ w Hload Hrt Hcls).
    eexists. reflexivity.
Qed.

Lemma for_yielded_all_skipped {A S} (gen : list (M (option A)))
    (body : S -> A -> M S) :
  Forall (fun resume => forall w, exists logs,
            resume w = (Return None, World (SCHEME_TO_CLS_MAP w) (LOG w ++ logs)))
         gen ->
  forall acc w, exists logs,
    for_yielded gen body acc w =
    (Return acc, World (SCHEME_TO_CLS_MAP w) (LOG w ++ logs)).
Proof.
  induction 1 as [| resume gen Hr _ IH]; intros acc w.
  - exists []. simpl. unfold ret. rewrite app_nil_r. now destruct w.
  - destruct (Hr w) as [l1 Hrun].
    destruct (IH acc (World (SCHEME_TO_CLS_MAP w) (LOG w ++ l1))) as [l2 Hrest].
    exists (l1 ++ l2). simpl. unfold bind at 1. rewrite Hrun, Hrest.
    simpl. now rewrite app_assoc.
Qed.

(** X12. When every configured driver fails to load with a [RuntimeError]
    or a [BadStoreConfiguration], [create_stores] does not raise: it
    returns 0 and leaves the registry as it was, only adding log records.
    An empty list of stores is the case with nothing to load. *)
Theorem create_stores_all_loads_fail (conf : Conf) (w : world)
    (Hfail : forall entry, entry ∈ stores conf ->
       exists e, DriverManager conf entry = Raise e /\
                 (isinstance bases e RuntimeError = true \/
                  isinstance bases e BadStoreConfiguration = true)) :
  exists logs,
    create_stores bases DriverManager conf w =
    (Return 0, World (SCHEME_TO_CLS_MAP w) (LOG w ++ logs)).
Proof.
  unfold create_stores. apply for_yielded_all_skipped.
  unfold _load_stores. apply Forall_forall. intros resume Hin.
  apply list_elem_of_In, in_map_iff in Hin as (entry & <- & Hentry).
  apply (proj2 (list_elem_of_In _ _)) in Hentry.
  apply elem_of_elements, elem_of_list_to_set in Hentry.
  destruct (Hfail entry Hentry) as (e & Hload & Hcls).
  intros w0. now apply (_load_stores_resume_skips conf entry e w0).
Qed.

Lemma for_yielded_count {A} (gen : list (M (option A)))
    (body : Z -> A -> M Z) :
  (forall acc a w n w', body acc a w = (Return n, w') -> n = acc + 1) ->
  forall acc w n w',
    for_yielded gen body acc w = (Return n, w') ->
    acc <= n <= acc + Z.of_nat (length gen).
Proof.
  intros Hbody. induction gen as [| resume gen IH]; intros acc w n w' Hrun.
  - simpl in Hrun. unfold ret in Hrun. inversion Hrun. simpl. lia.
  - simpl in Hrun. unfold bind at 1 in Hrun.
    destruct (resume w) as [[[a |] | e] w1]; [| | discriminate].
    + unfold bind at 1 in Hrun.
      destruct (body acc a w1) as [[acc' | e] w2] eqn:Eb; [| discriminate].
      apply Hbody in Eb. apply IH in Hrun. simpl length. lia.
    + apply IH in Hrun. simpl length. lia.
Qed.

(** X13. The count [create_stores] returns is never negative and never
    more than the number of distinct configured entries: each entry is
    loaded at most once, however often the list names it. *)
Theorem create_stores_count_bound (conf : Conf) (w w' : world) (n : Z)
    (Hrun : create_stores bases DriverManager conf w = (Return n, w')) :
  0 <= n <= Z.of_nat (size (list_to_set (stores conf) : gset string)) /\
  n <= Z.of_nat (length (stores conf)).
Proof.
  unfold create_stores in Hrun. apply for_yielded_count in Hrun.
  - unfold _load_stores in Hrun. rewrite length_fmap in Hrun.
    assert (Hlen : (length (elements (list_to_set (stores conf) : gset string))
                    <= length (stores conf))%nat).
    { apply submseteq_length, NoDup_submseteq; [apply NoDup_elements |].
      intros x Hx. now apply elem_of_elements, elem_of_list_to_set in Hx. }
    unfold size, set_size. simpl. lia.
  - clear. intros acc [entry st] w n w' Hbody.
    unfold bind, call in Hbody.
    destruct (get_schemes st) as [schemes | e]; [| discriminate].
    destruct (configure st) as [[] | e]; [| discriminate].
    destruct schemes as [| scheme schemes]; [discriminate |].
    unfold bind, log in Hbody.
    destruct (fill_scheme_map st (scheme :: schemes) ∅ _) as [[m | e] w1];
      [| discriminate].
    unfold register_scheme_map, bind, get_map, put_map, ret in Hbody.
    now inversion Hbody.
Qed.

End Loading.

Section LoadingOne.

Variable bases : hierarchy.
Variable DriverManager : Conf -> string -> outcome Store.

Lemma _load_stores_singleton (conf : Conf) (entry : string) :
  stores conf = [entry] ->
  _load_stores bases DriverManager conf =
  [_load_stores_resume bases DriverManager conf entry].
Proof.
  intros Hconf. unfold _load_stores. rewrite Hconf. simpl.
  now rewrite (right_id_L ∅ (∪)), elements_singleton.
Qed.

(** X14. With one configured driver: an exception raised while loading it
    that is neither a [RuntimeError] nor a [BadStoreConfiguration], and any
    exception raised by its [get_schemes] or its [configure], a
    [BadStoreConfiguration] included, leaves [create_stores] as it is. The
    registry is not changed, and the log holds only the record of the
    import attempt. *)
Theorem create_stores_driver_error_is_fatal
    (conf : Conf) (entry : string) (w : world)
    (Hconf : stores conf = [entry]) :
  let attempted :=
    World (SCHEME_TO_CLS_MAP w)
          (LOG w ++ [LogRecord DEBUG ("Attempting to import store " +:+ entry)]) in
  match DriverManager conf entry with
  | Raise e =>
      isinstance bases e RuntimeError = false ->
      isinstance bases e BadStoreConfiguration = false ->
      create_stores bases DriverManager conf w = (Raise e, attempted)
  | Return st =>
      match get_schemes st with
      | Raise e => create_stores bases DriverManager conf w = (Raise e, attempted)
      | Return _ =>
          match configure st with
          | Raise e =>
              create_stores bases DriverManager conf w = (Raise e, attempted)
          | Return _ => True
          end
      end
  end.
Proof.
  intros attempted. unfold create_stores.
  rewrite (_load_stores_singleton conf entry Hconf).
  cbn [for_yielded].
  unfold bind, _load_stores_resume, _load_store, try_except, bind, log, call, ret.
  cbv beta iota delta [List.find fst snd SCHEME_TO_CLS_MAP LOG].
  destruct (DriverManager conf entry) as [st | e].
  - cbv beta iota.
    destruct (get_schemes st) as [schemes | e]; [| reflexivity].
    destruct (configure st) as [[] | e]; [exact I | reflexivity].
  - intros Hrt Hbad. cbv beta iota delta [List.find fst snd].
    rewrite Hrt. cbv beta iota delta [List.find fst snd].
    rewrite Hbad. reflexivity.
Qed.

Lemma fill_scheme_map_returns (st : Store) (cls : string) :
  get_store_location_class st = Return cls ->
  forall schemes m w,
    fill_scheme_map st schemes m w =
    (Return (foldl (fun acc scheme =>
                      <[scheme := {| store := st; location_class := cls |}]> acc)
                   m schemes),
     w).
Proof.
  intros Hcls. induction schemes as [| scheme schemes IH]; intros m w.
  - reflexivity.
  - cbn [fill_scheme_map foldl]. unfold bind, call. rewrite Hcls. apply IH.
Qed.

Lemma lookup_foldl_insert (info : scheme_info) (schemes : list string) :
  forall (m : gmap string scheme_info) (s : string),
    foldl (fun acc scheme => <[scheme := info]> acc) m schemes !! s =
    if decide (s ∈ schemes) then Some info else m !! s.
Proof.
  induction schemes as [| scheme schemes IH]; intros m s.
  - simpl. destruct (decide (s ∈ [])) as [Hin | _]; [| reflexivity].
    now apply elem_of_nil in Hin.
  - cbn [foldl]. rewrite IH.
    destruct (decide (s ∈ schemes)) as [Hin | Hnin].
    + rewrite decide_True by (now right). reflexivity.
    + destruct (decide (s = scheme)) as [-> | Hne].
      * rewrite decide_True by (now left). apply lookup_insert_eq.
      * rewrite decide_False.
        -- now apply lookup_insert_ne.
        -- intros Hin. apply elem_of_cons in Hin as [? | ?]; contradiction.
Qed.

(** X15. With one configured driver that loads, is configured and reports
    at least one scheme, [create_stores] returns 1; afterwards each of
    those schemes is looked up to that very driver, and the entry of every
    other scheme is what it was. Registration itself,
    [location.register_scheme_map], is taken as merging with the last
    writer winning. *)
Theorem create_stores_registers_schemes
    (conf : Conf) (entry : string) (st : Store) (schemes : list string)
    (cls : string) (w : world)
    (Hconf : stores conf = [entry])
    (Hload : DriverManager conf entry = Return st)
    (Hschemes : get_schemes st = Return schemes)
    (Hsome : schemes <> [])
    (Hconfigure : configure st = Return tt)
    (Hcls : get_store_location_class st = Return cls) :
  exists w',
    create_stores bases DriverManager conf w = (Return 1, w') /\
    (forall s, s ∈ schemes -> get_store_from_scheme s w' = (Return st, w')) /\
    (forall s, s ∉ schemes ->
       SCHEME_TO_CLS_MAP w' !! s = SCHEME_TO_CLS_MAP w !! s).
Proof.
  set (info := {| store := st; location_class := cls |}).
  exists (World (foldl (fun acc scheme => <[scheme := info]> acc) ∅ schemes
                 ∪ SCHEME_TO_CLS_MAP w)
                ((LOG w ++ [LogRecord DEBUG ("Attempting to import store " +:+ entry)])
                 ++ [LogRecord DEBUG ("Registering store " +:+ entry +:+
                                      " with schemes " +:+ str_list schemes)])).
  split; [| split].
  - unfold create_stores.
    rewrite (_load_stores_singleton conf entry Hconf).
    cbn [for_yielded].
    unfold bind at 1.
    unfold _load_stores_resume, _load_store, try_except, bind, log, call, ret.
    rewrite Hload. cbv beta iota delta [SCHEME_TO_CLS_MAP LOG].
    rewrite Hschemes, Hconfigure.
    destruct schemes as [| scheme schemes]; [contradiction |].
    cbv beta iota.
    rewrite (fill_scheme_map_returns st cls Hcls).
    reflexivity.
  - intros s Hs. apply get_store_from_scheme_registered with (info := info).
    simpl. apply lookup_union_Some_l. rewrite lookup_foldl_insert.
    now rewrite decide_True.
  - intros s Hs. simpl. rewrite lookup_union_r; [reflexivity |].
    rewrite lookup_foldl_insert. now rewrite decide_False.
Qed.

(** X16. [register_store_opts] loads the configured drivers but registers
    nothing: whatever the drivers do, [SCHEME_TO_CLS_MAP] is afterwards
    what it was before. *)
Theorem register_store_opts_keeps_registry (conf : Conf) (w : world) :
  SCHEME_TO_CLS_MAP (snd (register_store_opts bases DriverManager conf w))
  = SCHEME_TO_CLS_MAP w.
Proof.
  unfold register_store_opts, _load_stores.
  generalize (elements (list_to_set (stores conf) : gset string)).
  intros entries.
  assert (Hloop : forall (yielded : list (string * Store)) w0,
    SCHEME_TO_CLS_MAP
      (snd (for_yielded
              (map (_load_stores_resume bases DriverManager conf) entries)
              (fun yielded y => ret (yielded ++ [y])) yielded w0))
    = SCHEME_TO_CLS_MAP w0).
  { induction entries as [| entry entries IH]; intros yielded w0.
    - reflexivity.
    - cbn [map for_yielded]. unfold bind at 1.
      pose proof (_load_stores_resume_keeps_registry bases DriverManager
                    conf entry w0) as Hkeep.
      destruct (_load_stores_resume bases DriverManager conf entry w0)
        as [[[y |] | e] w1]; simpl in Hkeep.
      + unfold bind at 1, ret at 1. now rewrite IH.
      + now rewrite IH.
      + exact Hkeep. }
  unfold bind at 1. specialize (Hloop [] w).
  destruct (for_yielded _ _ [] w) as [[l | e] w1]; exact Hloop.
Qed.

End LoadingOne.

(** X17. [get_known_schemes] lists each registered scheme once, and a
    scheme is listed exactly when [get_store_from_scheme] finds a driver
    for it. *)
Theorem get_known_schemes_are_the_registered (w : world) :
  exists schemes,
    get_known_schemes w = (Return schemes, w) /\
    NoDup schemes /\
    forall s, s ∈ schemes <->
              exists st, get_store_from_scheme s w = (Return st, w).
Proof.
  exists (elements (dom (SCHEME_TO_CLS_MAP w))).
  split; [reflexivity |]. split; [apply NoDup_elements |].
  intros s. rewrite elem_of_elements, elem_of_dom. split.
  - intros [info Hinfo]. exists (store info).
    now apply get_store_from_scheme_registered.
  - intros [st Hst].
    destruct (SCHEME_TO_CLS_MAP w !! s) as [info |] eqn:E; [eauto |].
    rewrite (get_store_from_scheme_unknown _ _ E) in Hst. discriminate.
Qed.

Lemma create_stores_all_loads_fail_witness :
  exists logs,
    create_stores flat sample_manager
      {| stores := ["ghost"; "misconfigured"]; default_store := "file" |}
      (registry_of [("mem", mem_store)]) =
    (Return 0,
     World (SCHEME_TO_CLS_MAP (registry_of [("mem", mem_store)]))
           (LOG (registry_of [("mem", mem_store)]) ++ logs)).
Proof.
  apply (create_stores_all_loads_fail flat sample_manager
           {| stores := ["ghost"; "misconfigured"]; default_store := "file" |}
           (registry_of [("mem", mem_store)])).
  intros entry Hin. simpl in Hin.
  apply elem_of_cons in Hin as [-> | Hin].
  - eexists. split; [reflexivity | left; reflexivity].
  - apply elem_of_cons in Hin as [-> | Hin].
    + eexists. split; [reflexivity | right; reflexivity].
    + now apply elem_of_nil in Hin.
Defined.

Lemma create_stores_count_bound_witness :
  0 <= 1 <= Z.of_nat (size (list_to_set ["mem"; "ghost"; "mem"] : gset string)) /\
  1 <= Z.of_nat (length ["mem"; "ghost"; "mem"]).
Proof.
  assert (Hrun : create_stores flat sample_manager
            {| stores := ["mem"; "ghost"; "mem"]; default_store := "mem" |}
            (World ∅ []) =
          (Return 1,
           snd (create_stores flat sample_manager
                  {| stores := ["mem"; "ghost"; "mem"]; default_store := "mem" |}
                  (World ∅ [])))) by (vm_compute; reflexivity).
  exact (create_stores_count_bound flat sample_manager
           {| stores := ["mem"; "ghost"; "mem"]; default_store := "mem" |}
           (World ∅ []) _ 1 Hrun).
Defined.

Lemma create_stores_driver_error_is_fatal_witness :
  create_stores flat (fun _ _ => Return misconfigured_store)
    {| stores := ["strict"]; default_store := "strict" |} (World ∅ []) =
  (Raise (Exc BadStoreConfiguration "missing option"),
   World ∅ [LogRecord DEBUG "Attempting to import store strict"]).
Proof.
  exact (create_stores_driver_error_is_fatal flat
           (fun _ _ => Return misconfigured_store)
           {| stores := ["strict"]; default_store := "strict" |} "strict"
           (World ∅ []) eq_refl).
Defined.

Lemma create_stores_registers_schemes_witness :
  exists w',
    create_stores flat sample_manager
      {| stores := ["mem"]; default_store := "mem" |}
      (registry_of [("file", failing_store)]) = (Return 1, w') /\
    (forall s, s ∈ ["mem"] -> get_store_from_scheme s w' = (Return mem_store, w')) /\
    (forall s, s ∉ ["mem"] ->
       SCHEME_TO_CLS_MAP w' !! s
       = SCHEME_TO_CLS_MAP (registry_of [("file", failing_store)]) !! s).
Proof.
  apply (create_stores_registers_schemes flat sample_manager
           {| stores := ["mem"]; default_store := "mem" |} "mem" mem_store
           ["mem"] "StoreLocation" (registry_of [("file", failing_store)]));
    try reflexivity.
  discriminate.
Defined.

(** ** More on the metadata check *)

Lemma check_rejects_is_raise (val : pyval) (key : string) :
  metadata_ok val = false ->
  exists e, check_location_metadata val key = Raise e.
Proof.
  intros Hbad. destruct (check_rejects val key Hbad) as (path & leaf & _ & H).
  eauto.
Qed.

(** X18. The check stops at the first invalid element. For a list whose
    elements before position [n] are valid and whose element at [n] is
    not, the outcome is that of checking that element under the key
    followed by [[n]]. For a dict whose values before some item are valid
    and whose value at that item is not, the outcome is that of checking
    that value under the item's own key: the key the dict itself was
    reached under plays no part. *)
Theorem check_location_metadata_first_invalid :
  (forall pre v post key,
     forallb metadata_ok pre = true ->
     metadata_ok v = false ->
     check_location_metadata (PList (pre ++ v :: post)) key =
     check_location_metadata v (index_key key (length pre))) /\
  (forall pre k v post key,
     forallb (fun '(_, x) => metadata_ok x) pre = true ->
     metadata_ok v = false ->
     check_location_metadata (PDict (pre ++ (k, v) :: post)) key =
     check_location_metadata v k).
Proof.
  split.
  - intros pre v post key Hpre Hv.
    change (check_location_metadata (PList (pre ++ v :: post)) key) with
      ((fix each (l : list pyval) (ndx : nat) : outcome unit :=
          match l with
          | [] => Return tt
          | v :: rest =>
              match check_location_metadata v (index_key key ndx) with
              | Return _ => each rest (S ndx)
              | Raise e => Raise e
              end
          end) (pre ++ v :: post) 0%nat).
    change (length pre) with (0 + length pre)%nat.
    generalize 0%nat.
    induction pre as [| a pre IH]; intros ndx.
    + cbn [app length]. rewrite Nat.add_0_r.
      destruct (check_rejects_is_raise v (index_key key ndx) Hv) as [e He].
      now rewrite He.
    + cbn [forallb] in Hpre. apply andb_prop in Hpre as [Ha Hpre].
      cbn [app length]. rewrite (check_accepts a _ Ha).
      rewrite (IH Hpre (S ndx)). f_equal. f_equal. lia.
  - intros pre k v post key Hpre Hv.
    change (check_location_metadata (PDict (pre ++ (k, v) :: post)) key) with
      ((fix each (items : list (string * pyval)) : outcome unit :=
          match items with
          | [] => Return tt
          | (key, v) :: rest =>
              match check_location_metadata v key with
              | Return _ => each rest
              | Raise e => Raise e
              end
          end) (pre ++ (k, v) :: post)).
    induction pre as [| [ka a] pre IH].
    + cbn [app].
      destruct (check_rejects_is_raise v k Hv) as [e He]. now rewrite He.
    + cbn [forallb] in Hpre. apply andb_prop in Hpre as [Ha Hpre].
      cbn [app]. rewrite (check_accepts a _ Ha). exact (IH Hpre).
Qed.

Lemma check_location_metadata_first_invalid_witness :
  check_location_metadata
    (PDict [("a", PUnicode "x"); ("b", PList [PUnicode "y"; PStr "z"; PInt 1])])
    "top" =
  Raise (Exc BackendException (invalid_type_msg "b[1]" (PStr "z"))).
Proof.
  etransitivity.
  - exact (proj2 check_location_metadata_first_invalid
             [("a", PUnicode "x")] "b" (PList [PUnicode "y"; PStr "z"; PInt 1])
             [] "top" eq_refl eq_refl).
  - etransitivity.
    + exact (proj1 check_location_metadata_first_invalid
               [PUnicode "y"] (PStr "z") [PInt 1] "b" eq_refl eq_refl).
    + vm_compute. reflexivity.
Defined.

(** ** More on the adapter *)

(** X19. An adapter of the class itself, which does not override
    [another], serves no indexed access when fresh: a start of zero or
    more raises the [NotImplementedError] of [another], a negative start
    or a slice without start raises [TypeError], and the adapter is left
    as it was built. *)
Theorem getitem_fresh_without_override
    (wrapped : Indexable.source) (size : option Z) (i : Indexable.index) :
  exists e,
    Indexable.__getitem__ Indexable.another (Indexable.__init__ wrapped size) i
    = (Raise e, Indexable.__init__ wrapped size) /\
    exc_class e =
      match start_of i with
      | Some start => if 0 <=? start then NotImplementedError else TypeError
      | None => TypeError
      end.
Proof.
  unfold Indexable.__getitem__, start_of.
  destruct i as [start | [start |] stop]; cbn [Indexable.cursor Indexable.chunk
    Indexable.__init__].
  - destruct (Z.ltb_spec start 0), (Z.leb_spec 0 start); try lia;
      eexists; split; reflexivity.
  - destruct (Z.ltb_spec start 0), (Z.leb_spec 0 start); try lia;
      eexists; split; reflexivity.
  - eexists; split; reflexivity.
Qed.

(** X20. Indexed access never moves the cursor back and never changes the
    declared size, as long as the [another] at hand leaves both alone. *)
Theorem getitem_cursor_never_goes_back
    (another : Indexable.t -> outcome (option string) * Indexable.t)
    (self : Indexable.t) (i : Indexable.index)
    (Hcursor : Indexable.cursor (snd (another self)) = Indexable.cursor self)
    (Hsize : Indexable.size (snd (another self)) = Indexable.size self) :
  Indexable.cursor self
    <= Indexable.cursor (snd (Indexable.__getitem__ another self i)) /\
  Indexable.__len__ (snd (Indexable.__getitem__ another self i))
    = Indexable.__len__ self.
Proof.
  unfold Indexable.__getitem__, Indexable.__len__.
  destruct i as [start | [start |] stop];
    try (split; [simpl; lia | reflexivity]);
    (destruct (start <? Indexable.cursor self);
     [destruct (Indexable.chunk self); split; simpl; (lia || reflexivity) |]);
    destruct (another self) as [[c | e] self']; simpl in *;
    (split; [| assumption]);
    try lia;
    (destruct (Indexable.nonempty c); [| lia]);
    unfold Py.len; lia.
Qed.

Lemma getitem_cursor_never_goes_back_witness :
  2 <= Indexable.cursor
         (snd (Indexable.__getitem__ Indexable.another_next
                 (Indexable.Make (Indexable.Source ["cd"] None) 4 2 (Some "ab"))
                 (Indexable.Int 2))) /\
  Indexable.__len__
    (snd (Indexable.__getitem__ Indexable.another_next
            (Indexable.Make (Indexable.Source ["cd"] None) 4 2 (Some "ab"))
            (Indexable.Int 2))) = 4.
Proof.
  exact (getitem_cursor_never_goes_back Indexable.another_next
           (Indexable.Make (Indexable.Source ["cd"] None) 4 2 (Some "ab"))
           (Indexable.Int 2) eq_refl eq_refl).
Defined.

Lemma iterate_last_state (n : nat) :
  forall (self s' : Indexable.t),
    (length (Indexable.pending (Indexable.wrapped self)) < n)%nat ->
    last (map snd (Indexable.iterate n self)) = Some s' ->
    Indexable.pending (Indexable.wrapped s') = [] /\
    Indexable.size s' = Indexable.size self.
Proof.
  induction n as [| n IH]; intros self s' Hn Hlast; [lia |].
  destruct self as [[pending len] size cursor chunk]. simpl in Hn.
  destruct pending as [| c rest]; [discriminate |].
  change (Indexable.iterate (S n)
            (Indexable.Make (Indexable.Source (c :: rest) len) size cursor chunk))
    with ((c, Indexable.Make (Indexable.Source rest len) size cursor (Some c))
          :: Indexable.iterate n
               (Indexable.Make (Indexable.Source rest len) size cursor (Some c)))
    in Hlast.
  cbn [map snd] in Hlast. rewrite last_cons in Hlast.
  destruct (last (map snd (Indexable.iterate n
              (Indexable.Make (Indexable.Source rest len) size cursor (Some c)))))
    as [s1 |] eqn:El.
  - inversion Hlast; subst s1.
    apply IH in El; [exact El | simpl in *; lia].
  - inversion Hlast; subst s'. apply last_None in El.
    destruct rest as [| c' rest']; [split; reflexivity |].
    destruct n as [| n']; [simpl in Hn; lia | discriminate El].
Qed.

(** X21. The adapter is one-pass. Once iteration has run through the
    wrapped source, the adapter as the last chunk left it yields nothing
    when iterated again; its declared size is still the one it was built
    with. *)
Theorem iterate_is_one_pass
    (self s' : Indexable.t) (n m : nat)
    (Hn : (length (Indexable.pending (Indexable.wrapped self)) < n)%nat)
    (Hlast : last (map snd (Indexable.iterate n self)) = Some s') :
  Indexable.iterate m s' = [] /\
  Indexable.__len__ s' = Indexable.__len__ self.
Proof.
  destruct (iterate_last_state n self s' Hn Hlast) as [Hempty Hsize].
  split; [| exact Hsize].
  destruct m as [| m]; [reflexivity |].
  cbn [Indexable.iterate]. unfold Indexable.__iter__. now rewrite Hempty.
Qed.

Lemma iterate_is_one_pass_witness :
  Indexable.iterate 5
    (Indexable.Make (Indexable.Source [] None) 4 0 (Some "cd")) = [] /\
  Indexable.__len__
    (Indexable.Make (Indexable.Source [] None) 4 0 (Some "cd"))
  = Indexable.__len__ ab_cd.
Proof.
  apply (iterate_is_one_pass ab_cd
           (Indexable.Make (Indexable.Source [] None) 4 0 (Some "cd")) 3 5).
  - simpl. lia.
  - reflexivity.
Defined.


